(** * The request-interception pipeline of the Gitpod server

    A shallow embedding of
      - components/server/src/auth/rate-limiter.ts
      - components/server/src/prometheusMetrics.ts
      - components/server/src/websocket-connection-manager.ts
    followed by the properties of the rate limiter, of the per-call
    pipeline and of the connection registry.

    Numbers are integers ([Z]); the module-level singletons, the
    prom-client counters, the logger and the manager's fields are the
    fields of one explicit [World], threaded through every operation. *)

From Stdlib Require Import ZArith String List Bool Lia DecimalString DecimalPos.
From stdpp Require Import base option list strings gmap.

Local Open Scope string_scope.
Local Open Scope list_scope.
Local Open Scope Z_scope.

(** ** The fragment of JavaScript the sources rely on *)
Module JS.

(** The result of [Number(x)] on an environment entry: [NaN] when the
    entry is unset or not numeric, an integer otherwise. *)
Inductive Num := NaN | Int (z : Z).

(** Values that reach the [||] operator and the RPC payloads. *)
Inductive Value :=
| Undefined
| Number (n : Z)
| Str (s : string).

(** ToBoolean: [undefined], [0] and the empty string are falsy. *)
Definition truthy (v : Value) : bool :=
  match v with
  | Undefined => false
  | Number n => negb (n =? 0)
  | Str s => negb (String.eqb s "")
  end.

(** [a || b] *)
Definition or (a b : Value) : Value := if truthy a then a else b.

(** [Number(x) || d] at type number. *)
Definition num_or (x : Num) (d : Z) : Z :=
  match x with
  | NaN => d
  | Int z => if z =? 0 then d else z
  end.

(** [String(n)] for an integer [n]: its decimal numeral. *)
Definition String_ (n : Z) : string := NilZero.string_of_int (Z.to_int n).

(** [Math.round(a / b)] for integers [a] and [b > 0]: the nearest
    integer, a tie going up, that is [floor (a/b + 1/2)]. *)
Definition Math_round_div (a b : Z) : Z := (2 * a + b) / (2 * b).

End JS.

(** ** rate-limiter-flexible *)

(** Modelled from the spec: the result object of the package
    rate-limiter-flexible, which is not among the sources; the pipeline
    reads [msBeforeNext], the milliseconds until the window ends. *)
Record RateLimiterRes := mkRateLimiterRes {
  remainingPoints : Z;
  msBeforeNext : Z;
  consumedPoints : Z;
  isFirstInDuration : bool
}.

(** How the promise returned by a limiter's [consume] settles: resolved
    with a result, rejected with a result (quota exceeded), or rejected
    with an [Error] (the limiter itself failed). *)
Inductive Settled :=
| Resolved (r : RateLimiterRes)
| Rejected (r : RateLimiterRes)
| RejectedError (message : string).

Module RateLimiterMemory.

(** Modelled from the spec: the stored state of a counter of the
    package rate-limiter-flexible, which is not among the sources: the
    points drawn in the window and the time the window ends. *)
Record StorageRecord := mkRecord { value : Z; expiresAt : Z }.

(** Modelled from the spec: a [RateLimiterMemory] of that package, with
    the options the sources set and one counter per key. *)
Record t := mk {
  keyPrefix : string;
  points : Z;
  duration : Z;
  storage : gmap string StorageRecord
}.

(** Modelled from the spec: a limiter with no point drawn yet. *)
Definition create (prefix : string) (pts dur : Z) : t :=
  mk prefix pts dur ∅.

(** Modelled from the spec: the name a key is stored under. *)
Definition getKey (rl : t) (key : string) : string :=
  if String.eqb (keyPrefix rl) "" then key
  else (keyPrefix rl ++ ":" ++ key)%string.

(** Modelled from the spec: the record of [key] after one more point is
    drawn at time [now]: the running window's counter plus one, or a new
    window holding one point when there is no window or it has ended. *)
Definition incr (now : Z) (rl : t) (key : string) : StorageRecord * bool :=
  match storage rl !! getKey rl key with
  | Some r =>
      if now <? expiresAt r
      then (mkRecord (value r + 1) (expiresAt r), false)
      else (mkRecord 1 (now + duration rl * 1000), true)
  | None => (mkRecord 1 (now + duration rl * 1000), true)
  end.

(** Modelled from the spec: the package rate-limiter-flexible
    ([RateLimiterMemory], [RateLimiterRes]) is a dependency whose code
    is not among the sources.  Each key owns a fixed-window counter of
    [points] per [duration] seconds; [consume] draws one point and, once
    the window's points are used up, rejects with the milliseconds left
    until the window ends.  Every call is counted, admitted or not. *)
Definition consume (now : Z) (rl : t) (key : string) : Settled * t :=
  let '(r, first) := incr now rl key in
  let res := mkRateLimiterRes (Z.max (points rl - value r) 0)
                              (expiresAt r - now) (value r) first in
  (if points rl <? value r then Rejected res else Resolved res,
   mk (keyPrefix rl) (points rl) (duration rl)
      (<[getKey rl key := r]> (storage rl))).

(** Modelled from the spec: the points drawn so far in the window of
    [key] that is open at [now]. *)
Definition consumed (now : Z) (rl : t) (key : string) : Z :=
  match storage rl !! getKey rl key with
  | Some r => if now <? expiresAt r then value r else 0
  | None => 0
  end.

End RateLimiterMemory.

(** ** Errors and the logger *)

Inductive Level := Debug | Info | Warn | Error.

(** What can be thrown across the pipeline: a [ResponseError] (code,
    message, optional data), another [Error], or any other value. *)
Inductive ErrorCode :=
| PERMISSION_DENIED
| TOO_MANY_REQUESTS
| InvalidRequest
| InternalError
| OtherCode (c : Z).

Inductive Thrown :=
| ResponseError (code : ErrorCode) (message : string)
                (data : option (list (string * JS.Value)))
| PlainError (message : string)
| ThrownValue (v : JS.Value).

(** One constructor per message template of the sources. *)
Inductive LogMessage :=
| CreateLimiterFor (user : string)
| NotConfiguredUsingFallback (method : string)
| LimiterResult (user method : string) (r : RateLimiterRes)
| UnexpectedLimiterError (message : string)
| TooManyRequests (method user : string) (r : RateLimiterRes)
| NotAllowed (method : string) (args : list JS.Value)
| Unsuccessful (method : string) (code : ErrorCode) (message : string)
               (args : list JS.Value)
| InternalServerError (method : string) (e : Thrown) (args : list JS.Value).

Definition LogEntry : Type := Level * LogMessage.

(** ** auth/rate-limiter.ts *)

Inductive MethodType := One | Two | Three.

Definition MethodType_eqb (a b : MethodType) : bool :=
  match a, b with
  | One, One | Two, Two | Three, Three => true
  | _, _ => false
  end.

(** [process.env] as seen through [Number(process.env.X)]. *)
Definition Env : Type := string -> JS.Num.

Definition emptyEnv : Env := fun _ => JS.NaN.

Module AnonymRateLimiter.

Record t := mk { rateLimiter : RateLimiterMemory.t }.

Definition user : string := "(anonym)".

(** The constructor; no [keyPrefix] is given, the package's default
    prefix applies. *)
Definition new (env : Env) : t :=
  mk (RateLimiterMemory.create "rlflx"
        (JS.num_or (env "RATE_LIMITER_ANON_POINTS") 10)
        (JS.num_or (env "RATE_LIMITER_ANON_DURATION") 60)).

Definition consume (now : Z) (this : t) (method : string) : Settled * t :=
  let '(r, rl) := RateLimiterMemory.consume now (rateLimiter this) method in
  (r, mk rl).

End AnonymRateLimiter.

Module UserRateLimiter.

Record t := mk {
  user : string;
  rateLimiterOne : RateLimiterMemory.t;
  rateLimiterTwo : RateLimiterMemory.t;
  rateLimiterThree : RateLimiterMemory.t
}.

Definition new (env : Env) (user : string) : t :=
  mk user
     (RateLimiterMemory.create "one"
        (JS.num_or (env "RATE_LIMITER_ONE_POINTS") 5)
        (JS.num_or (env "RATE_LIMITER_ONE_DURATION") 60))
     (RateLimiterMemory.create "two"
        (JS.num_or (env "RATE_LIMITER_TWO_POINTS") 15)
        (JS.num_or (env "RATE_LIMITER_TWO_DURATION") 60))
     (RateLimiterMemory.create "three"
        (JS.num_or (env "RATE_LIMITER_THREE_POINTS") 10)
        (JS.num_or (env "RATE_LIMITER_THREE_DURATION") 60)).

Definition methodTypeMappingObject : list (string * MethodType) :=
  [ ("getLoggedInUser", One);
    ("getTerms", One);
    ("updateLoggedInUser", One);
    ("getAuthProviders", One);
    ("getOwnAuthProviders", One);
    ("updateOwnAuthProvider", One);
    ("deleteOwnAuthProvider", One);
    ("getBranding", One);
    ("getConfiguration", One);
    ("getToken", One);
    ("getPortAuthenticationToken", One);
    ("deleteAccount", One);
    ("getClientRegion", One);
    ("hasPermission", One);
    ("getWorkspaces", One);
    ("getWorkspaceOwner", One);
    ("getWorkspaceUsers", One);
    ("getFeaturedRepositories", One);
    ("getWorkspace", One);
    ("isWorkspaceOwner", One);
    ("createWorkspace", One);
    ("startWorkspace", One);
    ("stopWorkspace", One);
    ("deleteWorkspace", One);
    ("setWorkspaceDescription", One);
    ("controlAdmission", One);
    ("updateWorkspaceUserPin", One);
    ("sendHeartBeat", One);
    ("watchWorkspaceImageBuildLogs", One);
    ("watchHeadlessWorkspaceLogs", One);
    ("isPrebuildDone", One);
    ("setWorkspaceTimeout", One);
    ("getWorkspaceTimeout", One);
    ("getOpenPorts", One);
    ("openPort", One);
    ("closePort", One);
    ("getUserMessages", One);
    ("updateUserMessages", One);
    ("getUserStorageResource", One);
    ("updateUserStorageResource", One);
    ("getEnvVars", One);
    ("setEnvVar", One);
    ("deleteEnvVar", One);
    ("getContentBlobUploadUrl", One);
    ("getContentBlobDownloadUrl", One);
    ("getGitpodTokens", One);
    ("generateNewGitpodToken", One);
    ("deleteGitpodToken", One);
    ("sendFeedback", One);
    ("registerGithubApp", One);
    ("takeSnapshot", One);
    ("getSnapshots", One);
    ("storeLayout", One);
    ("getLayout", One);
    ("preparePluginUpload", One);
    ("resolvePlugins", One);
    ("installUserPlugins", One);
    ("uninstallUserPlugin", One);

    ("adminGetUsers", One);
    ("adminGetUser", One);
    ("adminBlockUser", One);
    ("adminDeleteUser", One);
    ("adminModifyRoleOrPermission", One);
    ("adminModifyPermanentWorkspaceFeatureFlag", One);
    ("adminGetWorkspaces", One);
    ("adminGetWorkspace", One);
    ("adminForceStopWorkspace", One);
    ("adminSetLicense", One);

    ("validateLicense", One);
    ("getLicenseInfo", One);
    ("licenseIncludesFeature", One) ].

(** [new Map(entries)]: entries are set in order, a later one
    replacing an earlier one with the same key. *)
Definition Map_of_entries (entries : list (string * MethodType))
  : gmap string MethodType :=
  fold_left (fun m kv => <[kv.1 := kv.2]> m) entries ∅.

Definition methodTypeMapping : gmap string MethodType :=
  Map_of_entries methodTypeMappingObject.

(** [get(method) == type]: an absent method gives [undefined], which
    is loosely equal to no member of the enumeration. *)
Definition isGroupType (method : string) (type : MethodType) : bool :=
  match methodTypeMapping !! method with
  | Some ty => MethodType_eqb ty type
  | None => false
  end.

Definition isGroupOneMethod (method : string) : bool := isGroupType method One.
Definition isGroupTwoMethod (method : string) : bool := isGroupType method Two.
Definition isGroupThreeMethod (method : string) : bool := isGroupType method Three.

Definition consumeOne (now : Z) (this : t) : Settled * t :=
  let '(r, rl) := RateLimiterMemory.consume now (rateLimiterOne this) (user this) in
  (r, mk (user this) rl (rateLimiterTwo this) (rateLimiterThree this)).

Definition consumeTwo (now : Z) (this : t) : Settled * t :=
  let '(r, rl) := RateLimiterMemory.consume now (rateLimiterTwo this) (user this) in
  (r, mk (user this) (rateLimiterOne this) rl (rateLimiterThree this)).

Definition consumeThree (now : Z) (this : t) : Settled * t :=
  let '(r, rl) := RateLimiterMemory.consume now (rateLimiterThree this) (user this) in
  (r, mk (user this) (rateLimiterOne this) (rateLimiterTwo this) rl).

(** [consume]: the settled promise, what was logged, the limiter after. *)
Definition consume (now : Z) (this : t) (method : string)
  : Settled * list LogEntry * t :=
  if isGroupOneMethod method then
    let '(r, this') := consumeOne now this in (r, [], this')
  else if isGroupTwoMethod method then
    let '(r, this') := consumeTwo now this in (r, [], this')
  else if isGroupThreeMethod method then
    let '(r, this') := consumeThree now this in (r, [], this')
  else
    let '(r, this') := consumeThree now this in
    (r, [(Warn, NotConfiguredUsingFallback method)], this').

End UserRateLimiter.

(** ** prometheusMetrics.ts *)

Record Metrics := mkMetrics {
  loginCounter : gmap (string * string) Z;
  apiConnectionCounter : Z;
  apiConnectionClosedCounter : Z;
  apiCallCounter : gmap string Z
}.

Definition noMetrics : Metrics := mkMetrics ∅ 0 0 ∅.

(** [counter.inc(labels)] *)
Definition inc `{Countable K} (labels : K) (c : gmap K Z) : gmap K Z :=
  <[labels := default 0 (c !! labels) + 1]> c.

Definition increaseLoginCounter (status auth_host : string) (m : Metrics) : Metrics :=
  mkMetrics (inc (status, auth_host) (loginCounter m)) (apiConnectionCounter m)
            (apiConnectionClosedCounter m) (apiCallCounter m).

Definition increaseApiConnectionCounter (m : Metrics) : Metrics :=
  mkMetrics (loginCounter m) (apiConnectionCounter m + 1)
            (apiConnectionClosedCounter m) (apiCallCounter m).

Definition increaseApiConnectionClosedCounter (m : Metrics) : Metrics :=
  mkMetrics (loginCounter m) (apiConnectionCounter m)
            (apiConnectionClosedCounter m + 1) (apiCallCounter m).

Definition increaseApiCallCounter (method : string) (m : Metrics) : Metrics :=
  mkMetrics (loginCounter m) (apiConnectionCounter m)
            (apiConnectionClosedCounter m) (inc method (apiCallCounter m)).

(** ** websocket-connection-manager.ts: the data *)

Inductive EventName := EVENT_CONNECTION_CREATED | EVENT_CONNECTION_CLOSED.

Definition EventName_eqb (a b : EventName) : bool :=
  match a, b with
  | EVENT_CONNECTION_CREATED, EVENT_CONNECTION_CREATED
  | EVENT_CONNECTION_CLOSED, EVENT_CONNECTION_CLOSED => true
  | _, _ => false
  end.

(** A [JsonRpcProxy] client and a lifecycle listener, by identity. *)
Definition Client : Type := string.
Definition Listener : Type := string.

(** [FunctionAccessGuard]: its [canAccess]. *)
Definition FunctionAccessGuard : Type := string -> bool.
Definition AllAccessFunctionGuard : FunctionAccessGuard := fun _ => true.

(** The resource guards [createProxyTarget] chooses between; the last
    one is the literal [{ canAccess: async () => false }]. *)
Inductive MemberGuard :=
| OwnerResourceGuard (userId : string)
| SharedWorkspaceAccessGuard.

Inductive ResourceAccessGuard :=
| ExplicitResourceGuard (name : string)
| CompositeResourceAccessGuard (members : list MemberGuard)
| DenyAllResourceGuard.

(** What the manager reads of the upstream request. *)
Record Request := mkRequest {
  req_session : bool;
  req_clientRegion : option string;
  req_user : option string;
  req_resourceGuard : option ResourceAccessGuard;
  req_functionGuard : option FunctionAccessGuard
}.

(** How an operation of the handler ends. *)
Inductive HandlerOutcome :=
| HReturn (v : JS.Value)
| HThrow (e : Thrown).

Record Initialization := mkInitialization {
  init_client : Client;
  init_clientRegion : option string;
  init_user : option string;
  init_resourceGuard : ResourceAccessGuard
}.

(** Modelled from the spec: [GitpodServerImpl]
    (workspace/gitpod-server-impl.ts) is not among the sources.  It is the
    private handler of one connection: it has a unique identifier, is
    initialized with the client, the client region, the actor and the
    resource guard, and offers the remotely invocable operations, whose
    business logic is out of scope and taken as a function. *)
Record GitpodServerImpl := mkServer {
  uuid : string;
  operations : string -> list JS.Value -> HandlerOutcome;
  initialized : option Initialization
}.

Definition initialize (client : Client) (clientRegion user : option string)
    (resourceGuard : ResourceAccessGuard) (s : GitpodServerImpl) : GitpodServerImpl :=
  mkServer (uuid s) (operations s)
           (Some (mkInitialization client clientRegion user resourceGuard)).

(** A limiter object, by reference: the anonymous singleton or the
    cached instance of a user. *)
Inductive RateLimiterRef := AnonymRef | UserRef (user : string).

(** [GitpodJsonRpcProxyFactory]: the per-connection interceptor. *)
Record GitpodJsonRpcProxyFactory := mkFactory {
  accessGuard : FunctionAccessGuard;
  rateLimiter : RateLimiterRef;
  target : GitpodServerImpl;
  target_session : bool
}.

(** Everything observable that the code does besides updating its own
    state, in the order it happens. *)
Inductive Effect :=
| Log (level : Level) (message : LogMessage)
| Emit (event : EventName) (server : string)
| Notify (l : Listener) (event : EventName) (server : string)
| Dispose (server : string)
| SessionTouch
| Invoke (server method : string) (args : list JS.Value).

Record World := mkWorld {
  clock : Z;
  process_env : Env;
  anonym_instance_ : option AnonymRateLimiter.t;
  user_instances : gmap string UserRateLimiter.t;
  metrics : Metrics;
  servers : list GitpodServerImpl;
  listeners : list (EventName * Listener);
  closeCallbacks : list (Client * GitpodServerImpl);
  trace : list Effect
}.

Definition initialWorld (env : Env) : World :=
  mkWorld 0 env None ∅ noMetrics [] [] [] [].

Definition set_clock (t : Z) (w : World) : World :=
  mkWorld t (process_env w) (anonym_instance_ w) (user_instances w) (metrics w)
          (servers w) (listeners w) (closeCallbacks w) (trace w).

Definition set_anonym (a : option AnonymRateLimiter.t) (w : World) : World :=
  mkWorld (clock w) (process_env w) a (user_instances w) (metrics w)
          (servers w) (listeners w) (closeCallbacks w) (trace w).

Definition set_users (u : gmap string UserRateLimiter.t) (w : World) : World :=
  mkWorld (clock w) (process_env w) (anonym_instance_ w) u (metrics w)
          (servers w) (listeners w) (closeCallbacks w) (trace w).

Definition set_metrics (m : Metrics) (w : World) : World :=
  mkWorld (clock w) (process_env w) (anonym_instance_ w) (user_instances w) m
          (servers w) (listeners w) (closeCallbacks w) (trace w).

Definition set_servers (s : list GitpodServerImpl) (w : World) : World :=
  mkWorld (clock w) (process_env w) (anonym_instance_ w) (user_instances w)
          (metrics w) s (listeners w) (closeCallbacks w) (trace w).

Definition set_listeners (l : list (EventName * Listener)) (w : World) : World :=
  mkWorld (clock w) (process_env w) (anonym_instance_ w) (user_instances w)
          (metrics w) (servers w) l (closeCallbacks w) (trace w).

Definition set_closeCallbacks (c : list (Client * GitpodServerImpl)) (w : World) : World :=
  mkWorld (clock w) (process_env w) (anonym_instance_ w) (user_instances w)
          (metrics w) (servers w) (listeners w) c (trace w).

Definition set_trace (t : list Effect) (w : World) : World :=
  mkWorld (clock w) (process_env w) (anonym_instance_ w) (user_instances w)
          (metrics w) (servers w) (listeners w) (closeCallbacks w) t.

(** *** Stateful computations *)

Definition M (A : Type) : Type := World -> A * World.

Definition ret {A} (a : A) : M A := fun w => (a, w).

Definition bind {A B} (m : M A) (k : A -> M B) : M B :=
  fun w => let '(a, w') := m w in k a w'.

Notation "'let*' x ':=' m 'in' k" := (bind m (fun x => k))
  (at level 10, x name, m at level 100, k at level 200).
Notation "m ';;' k" := (bind m (fun _ => k))
  (at level 100, k at level 200, right associativity).

Definition modify (f : World -> World) : M unit := fun w => (tt, f w).

Definition effect (e : Effect) : M unit :=
  modify (fun w => set_trace (trace w ++ [e]) w).

Definition effects (es : list Effect) : M unit :=
  modify (fun w => set_trace (trace w ++ es) w).

Definition log (level : Level) (message : LogMessage) : M unit :=
  effect (Log level message).

Definition exec {A} (m : M A) (w : World) : World := (m w).2.

(** *** The limiter singletons (auth/rate-limiter.ts, static members) *)

(** [AnonymRateLimiter.instance()] *)
Definition AnonymRateLimiter_instance : M RateLimiterRef := fun w =>
  match anonym_instance_ w with
  | Some _ => (AnonymRef, w)
  | None => (AnonymRef, set_anonym (Some (AnonymRateLimiter.new (process_env w))) w)
  end.

(** [UserRateLimiter.instance(user)]; the constructor logs. *)
Definition UserRateLimiter_instance (user : string) : M RateLimiterRef := fun w =>
  match user_instances w !! user with
  | Some _ => (UserRef user, w)
  | None =>
      let w1 := exec (log Debug (CreateLimiterFor user)) w in
      (UserRef user,
       set_users (<[user := UserRateLimiter.new (process_env w) user]> (user_instances w)) w1)
  end.

(** [rateLimiter.user] *)
Definition RateLimiter_user (ref : RateLimiterRef) : string :=
  match ref with
  | AnonymRef => AnonymRateLimiter.user
  | UserRef u => u
  end.

(** [rateLimiter.consume(method)] on the object the reference names, at
    the current time.  Instances are never removed, so a reference
    obtained from [instance] always names an object; for a reference
    that names none the call is made to fail. *)
Definition RateLimiter_consume (ref : RateLimiterRef) (method : string) : M Settled :=
  fun w =>
  match ref with
  | AnonymRef =>
      match anonym_instance_ w with
      | Some a =>
          let '(r, a') := AnonymRateLimiter.consume (clock w) a method in
          (r, set_anonym (Some a') w)
      | None => (RejectedError "no limiter", w)
      end
  | UserRef u =>
      match user_instances w !! u with
      | Some l =>
          let '(r, entries, l') := UserRateLimiter.consume (clock w) l method in
          (r, set_users (<[u := l']> (user_instances w))
                (exec (effects (map (fun e => Log e.1 e.2) entries)) w))
      | None => (RejectedError "no limiter", w)
      end
  end.

(** *** WebsocketConnectionManager *)

(** [Array.prototype.findIndex], [-1] when no element satisfies [p]. *)
Fixpoint findIndex {A} (p : A -> bool) (l : list A) : Z :=
  match l with
  | [] => -1
  | x :: l' =>
      if p x then 0
      else let i := findIndex p l' in if i =? -1 then -1 else i + 1
  end.

(** [array.splice(start)] with the single argument [start >= 0]: every
    element from [start] on is removed. *)
Definition splice1 {A} (start : Z) (l : list A) : list A :=
  take (Z.to_nat start) l.

Definition removeServer (oddServer : GitpodServerImpl) : M unit := fun w =>
  let index := findIndex (fun s => String.eqb (uuid s) (uuid oddServer)) (servers w) in
  if negb (index =? -1)
  then (tt, set_servers (splice1 index (servers w)) w)
  else (tt, w).

(** [events.emit(event, server)]: the listeners of [event] are called in
    the order they were added. *)
Definition emit (event : EventName) (server : GitpodServerImpl) : M unit := fun w =>
  let called := filter (fun el => EventName_eqb el.1 event = true) (listeners w) in
  (tt, exec (effect (Emit event (uuid server));;
             effects (map (fun el => Notify el.2 event (uuid server)) called)) w).

(** [events.on(event, l)] *)
Definition on (event : EventName) (l : Listener) : M unit :=
  modify (fun w => set_listeners (listeners w ++ [(event, l)]) w).

(** Removes the first occurrence of a listener entry. *)
Fixpoint remove_first (event : EventName) (l : Listener)
    (ls : list (EventName * Listener)) : list (EventName * Listener) :=
  match ls with
  | [] => []
  | el :: ls' =>
      if EventName_eqb el.1 event && String.eqb el.2 l then ls'
      else el :: remove_first event l ls'
  end.

(** [events.off(event, l)]: the most recently added instance goes. *)
Definition off (event : EventName) (l : Listener) : M unit :=
  modify (fun w =>
    set_listeners (reverse (remove_first event l (reverse (listeners w)))) w).

(** The body of the callback given to [client.onDidCloseConnection]. *)
Definition onDidCloseConnection_callback (gitpodServer : GitpodServerImpl) : M unit :=
  effect (Dispose (uuid gitpodServer));;
  removeServer gitpodServer;;
  emit EVENT_CONNECTION_CLOSED gitpodServer.

(** [createAccessGuard] *)
Definition createAccessGuard (request : Request) : FunctionAccessGuard :=
  match req_functionGuard request with
  | Some g => g
  | None => AllAccessFunctionGuard
  end.

(** [createProxyTarget]; [fresh] is what [this.serverFactory()] returns.
    The result is the server behind the session-touching proxy. *)
Definition createProxyTarget (fresh : GitpodServerImpl) (client : Client)
    (request : Request) : M GitpodServerImpl :=
  let clientRegion := req_clientRegion request in
  let user := req_user request in
  let resourceGuard :=
    match req_resourceGuard request with
    | Some explicitGuard => explicitGuard
    | None =>
        match user with
        | Some id =>
            CompositeResourceAccessGuard [OwnerResourceGuard id; SharedWorkspaceAccessGuard]
        | None => DenyAllResourceGuard
        end
    end in
  let gitpodServer := initialize client clientRegion user resourceGuard fresh in
  modify (fun w => set_closeCallbacks (closeCallbacks w ++ [(client, gitpodServer)]) w);;
  modify (fun w => set_servers (servers w ++ [gitpodServer]) w);;
  emit EVENT_CONNECTION_CREATED gitpodServer;;
  ret gitpodServer.

(** [createRateLimiter] *)
Definition createRateLimiter (request : Request) : M RateLimiterRef :=
  match req_user request with
  | Some id => UserRateLimiter_instance id
  | None => AnonymRateLimiter_instance
  end.

(** [currentConnectionCount] *)
Definition currentConnectionCount (w : World) : Z := Z.of_nat (length (servers w)).

(** A [Disposable] whose [dispose] is [events.off(event, l)]. *)
Record Disposable := mkDisposable { disp_event : EventName; disp_listener : Listener }.

Definition dispose (d : Disposable) : M unit := off (disp_event d) (disp_listener d).

Definition onConnectionCreated (l : Listener) : M Disposable :=
  modify (fun w => set_metrics (increaseApiConnectionCounter (metrics w)) w);;
  on EVENT_CONNECTION_CREATED l;;
  ret (mkDisposable EVENT_CONNECTION_CREATED l).

Definition onConnectionClosed (l : Listener) : M Disposable :=
  modify (fun w => set_metrics (increaseApiConnectionClosedCounter (metrics w)) w);;
  on EVENT_CONNECTION_CLOSED l;;
  ret (mkDisposable EVENT_CONNECTION_CLOSED l).

(** The transport closes the connection of [client]: the callbacks
    registered on it run, in order. *)
Definition didCloseConnection (client : Client) : M unit := fun w =>
  (tt, fold_left (fun acc cb =>
                    if String.eqb cb.1 client
                    then exec (onDidCloseConnection_callback cb.2) acc else acc)
                 (closeCallbacks w) w).

(** *** GitpodJsonRpcConnectionHandler and GitpodJsonRpcProxyFactory *)

(** [onConnection]: the guard, the limiter, then the target. *)
Definition onConnection (fresh : GitpodServerImpl) (client : Client)
    (request : Request) : M GitpodJsonRpcProxyFactory :=
  let guard := createAccessGuard request in
  let* limiter := createRateLimiter request in
  let* server := createProxyTarget fresh client request in
  ret (mkFactory guard limiter server (req_session request)).

(** How a call ends for the caller. *)
Inductive Outcome :=
| Returned (v : JS.Value)
| Threw (e : Thrown).

(** The value of the [Retry-After] entry. *)
Definition retryAfter (rlRejected : RateLimiterRes) : JS.Value :=
  JS.or (JS.Str (JS.String_ (JS.Math_round_div (msBeforeNext rlRejected) 1000)))
        (JS.Number 1).

(** [this.target[method](...args)]: the proxy's [get] trap touches the
    session, then the operation runs. *)
Definition callTarget (this : GitpodJsonRpcProxyFactory) (method : string)
    (args : list JS.Value) : M HandlerOutcome :=
  (if target_session this then effect SessionTouch else ret tt);;
  effect (Invoke (uuid (target this)) method args);;
  ret (operations (target this) method args).

Definition onRequest (this : GitpodJsonRpcProxyFactory) (method : string)
    (args : list JS.Value) : M Outcome :=
  modify (fun w => set_metrics (increaseApiCallCounter method (metrics w)) w);;
  let* settled := RateLimiter_consume (rateLimiter this) method in
  match settled with
  | Resolved result =>
      log Debug (LimiterResult (RateLimiter_user (rateLimiter this)) method result);;
      if negb (accessGuard this method) then
        log Error (NotAllowed method args);;
        ret (Threw (ResponseError PERMISSION_DENIED "not allowed" None))
      else
        let* r := callTarget this method args in
        match r with
        | HReturn v => ret (Returned v)
        | HThrow e =>
            match e with
            | ResponseError code message _ =>
                log Info (Unsuccessful method code message args)
            | _ => log Error (InternalServerError method e args)
            end;;
            ret (Threw e)
        end
  | RejectedError message =>
      log Error (UnexpectedLimiterError message);;
      ret (Threw (PlainError message))
  | Rejected rlRejected =>
      log Warn (TooManyRequests method (RateLimiter_user (rateLimiter this)) rlRejected);;
      ret (Threw (ResponseError TOO_MANY_REQUESTS "too many requests"
                    (Some [("Retry-After", retryAfter rlRejected)])))
  end.

Definition onNotification (this : GitpodJsonRpcProxyFactory) (method : string)
    (args : list JS.Value) : M Outcome :=
  ret (Threw (ResponseError InvalidRequest "notifications are not supported" None)).

(** Time passes. *)
Definition advance (ms : Z) : M unit :=
  modify (fun w => set_clock (clock w + ms) w).

(** ** Vocabulary of the statements *)

(** The limiter of a tier. *)
Definition limiterOf (tier : MethodType) (l : UserRateLimiter.t) : RateLimiterMemory.t :=
  match tier with
  | One => UserRateLimiter.rateLimiterOne l
  | Two => UserRateLimiter.rateLimiterTwo l
  | Three => UserRateLimiter.rateLimiterThree l
  end.

(** One point drawn from a given tier, for the limiter's user. *)
Definition consumeIn (tier : MethodType) (now : Z) (l : UserRateLimiter.t)
  : Settled * UserRateLimiter.t :=
  match tier with
  | One => UserRateLimiter.consumeOne now l
  | Two => UserRateLimiter.consumeTwo now l
  | Three => UserRateLimiter.consumeThree now l
  end.

(** [consume] of [method] charges [tier]: it settles as, and leaves the
    limiter as, one point drawn from that tier. *)
Definition chargedTo (tier : MethodType) (now : Z) (l : UserRateLimiter.t)
    (method : string) : Prop :=
  let '(r, _, l') := UserRateLimiter.consume now l method in
  (r, l') = consumeIn tier now l.

(** A tier with the fewest points per window. *)
Definition mostRestrictive (tier : MethodType) (l : UserRateLimiter.t) : Prop :=
  forall other, RateLimiterMemory.points (limiterOf tier l)
                <= RateLimiterMemory.points (limiterOf other l).

(** The tier whose limiter [consume] draws from. *)
Definition tierOf (method : string) : MethodType :=
  if UserRateLimiter.isGroupOneMethod method then One
  else if UserRateLimiter.isGroupTwoMethod method then Two
  else Three.

(** Points already drawn, in the window open now, from the counter that
    a call of [method] through [ref] is charged to. *)
Definition used (ref : RateLimiterRef) (method : string) (w : World) : Z :=
  match ref with
  | AnonymRef =>
      match anonym_instance_ w with
      | Some a =>
          RateLimiterMemory.consumed (clock w) (AnonymRateLimiter.rateLimiter a) method
      | None => 0
      end
  | UserRef u =>
      match user_instances w !! u with
      | Some l =>
          RateLimiterMemory.consumed (clock w) (limiterOf (tierOf method) l)
                                     (UserRateLimiter.user l)
      | None => 0
      end
  end.

(** The reference names a limiter object. *)
Definition live (ref : RateLimiterRef) (w : World) : Prop :=
  match ref with
  | AnonymRef => is_Some (anonym_instance_ w)
  | UserRef u => is_Some (user_instances w !! u)
  end.

Definition isInvoke (e : Effect) : bool :=
  match e with Invoke _ _ _ => true | _ => false end.

(** The handler invocations recorded so far. *)
Definition invocations (w : World) : list Effect := List.filter isInvoke (trace w).

Definition isEmitOf (event : EventName) (server : string) (e : Effect) : bool :=
  match e with
  | Emit ev s => EventName_eqb ev event && String.eqb s server
  | _ => false
  end.

(** How often [event] was emitted for [server]. *)
Definition emissions (event : EventName) (server : string) (w : World) : nat :=
  length (List.filter (isEmitOf event server) (trace w)).

Definition isNotifyOf (l : Listener) (event : EventName) (server : string)
    (e : Effect) : bool :=
  match e with
  | Notify l' ev s => String.eqb l' l && EventName_eqb ev event && String.eqb s server
  | _ => false
  end.

(** How often listener [l] was told of [event] for [server]. *)
Definition notifications (l : Listener) (event : EventName) (server : string)
    (w : World) : nat :=
  length (List.filter (isNotifyOf l event server) (trace w)).

(** Is a server with this identifier in the live set? *)
Definition registered (id : string) (w : World) : bool :=
  existsb (fun s => String.eqb (uuid s) id) (servers w).

(** ** Scenarios *)

Definition idle : string -> list JS.Value -> HandlerOutcome :=
  fun _ _ => HReturn JS.Undefined.

(** A handler whose every operation fails with a plain [Error]. *)
Definition failing (message : string) : string -> list JS.Value -> HandlerOutcome :=
  fun _ _ => HThrow (PlainError message).

Definition newServer (id : string) : GitpodServerImpl := mkServer id idle None.

Definition anonymous : Request := mkRequest false None None None None.

Definition loggedIn (id : string) : Request := mkRequest false None (Some id) None None.


Fixpoint times {A} (n : nat) (m : M A) : M unit :=
  match n with
  | O => ret tt
  | S n' => m;; times n' m
  end.

(** Alice connects and calls a tier-one operation five times at once. *)
Definition aliceConnected : GitpodJsonRpcProxyFactory * World :=
  onConnection (newServer "a") "client-a" (loggedIn "alice") (initialWorld emptyEnv).

Definition aliceExhausted : World :=
  exec (times 5 (onRequest aliceConnected.1 "getTerms" [])) aliceConnected.2.

(** Three connections, established one after the other. *)
Definition threeConnections : World :=
  exec (onConnection (newServer "a") "client-a" (loggedIn "alice");;
        onConnection (newServer "b") "client-b" (loggedIn "bob");;
        onConnection (newServer "c") "client-c" anonymous)
       (initialWorld emptyEnv).


(** One observer of closed connections, then one connection. *)
Definition observedConnection : World :=
  exec (onConnectionClosed "observer";;
        onConnection (newServer "a") "client-a" anonymous)
       (initialWorld emptyEnv).


(** An anonymous connection whose handler fails with a plain [Error]. *)
Definition failingConnection : GitpodJsonRpcProxyFactory * World :=
  onConnection (mkServer "a" (failing "connect ECONNREFUSED db:5432") None)
    "client-a" anonymous (initialWorld emptyEnv).

(** A limiter object of either class. *)
Inductive Limiter :=
| AnonymLimiter (a : AnonymRateLimiter.t)
| UserLimiter (l : UserRateLimiter.t).

(** The object a reference names, with its counters, if there is one. *)
Definition instanceOf (ref : RateLimiterRef) (w : World) : option Limiter :=
  match ref with
  | AnonymRef => AnonymLimiter <$> anonym_instance_ w
  | UserRef u => UserLimiter <$> user_instances w !! u
  end.

(** How often listener [l] is subscribed to [event]. *)
Definition subscriptions (event : EventName) (l : Listener) (w : World) : nat :=
  length (List.filter
            (fun el : EventName * Listener =>
               EventName_eqb el.1 event && String.eqb el.2 l)
            (listeners w)).

Definition isDisposeOf (server : string) (e : Effect) : bool :=
  match e with
  | Dispose s => String.eqb s server
  | _ => false
  end.

(** How often the handler [server] was disposed. *)
Definition disposals (server : string) (w : World) : nat :=
  length (List.filter (isDisposeOf server) (trace w)).

(** A sequence of calls on one connection, one after the other. *)
Fixpoint requests (this : GitpodJsonRpcProxyFactory)
    (calls : list (string * list JS.Value)) : M unit :=
  match calls with
  | [] => ret tt
  | call :: rest => onRequest this call.1 call.2;; requests this rest
  end.

(** How often [method] is called in a sequence of calls. *)
Definition callsOf (method : string) (calls : list (string * list JS.Value)) : Z :=
  Z.of_nat (length (List.filter (fun call : string * list JS.Value =>
                                   String.eqb call.1 method) calls)).

(** The value the call counter shows for [method]. *)
Definition callCount (method : string) (w : World) : Z :=
  default 0 (apiCallCounter (metrics w) !! method).

(** Alice and bob connected, alice having used her tier-one points. *)
Definition aliceAndBob : GitpodJsonRpcProxyFactory * GitpodJsonRpcProxyFactory * World :=
  (let* fa := onConnection (newServer "a") "client-a" (loggedIn "alice") in
   let* fb := onConnection (newServer "b") "client-b" (loggedIn "bob") in
   times 5 (onRequest fa "getTerms" []);;
   ret (fa, fb)) (initialWorld emptyEnv).

(** A sequence of login reports, each a status and an auth host. *)
Definition reportLogins (reports : list (string * string)) (m : Metrics) : Metrics :=
  fold_left (fun acc report => increaseLoginCounter report.1 report.2 acc) reports m.

(** How often a pair of status and auth host occurs among the reports. *)
Definition reportsOf (status auth_host : string) (reports : list (string * string)) : Z :=
  Z.of_nat (length (List.filter
                      (fun report : string * string =>
                         String.eqb report.1 status && String.eqb report.2 auth_host)
                      reports)).

(** Is the effect a log entry at level [Warn]? *)
Definition isWarning (e : Effect) : bool :=
  match e with
  | Log Warn _ => true
  | _ => false
  end.

(** The servers of [threeConnections] as they are registered. *)
Definition serverA : GitpodServerImpl :=
  initialize "client-a" None (Some "alice")
    (CompositeResourceAccessGuard [OwnerResourceGuard "alice"; SharedWorkspaceAccessGuard])
    (newServer "a").

Definition serverB : GitpodServerImpl :=
  initialize "client-b" None (Some "bob")
    (CompositeResourceAccessGuard [OwnerResourceGuard "bob"; SharedWorkspaceAccessGuard])
    (newServer "b").

Definition serverC : GitpodServerImpl :=
  initialize "client-c" None None DenyAllResourceGuard (newServer "c").





(** The limiter of alice under the default configuration. *)
Definition aliceFresh : UserRateLimiter.t := UserRateLimiter.new emptyEnv "alice".

(** * Properties *)

(** The table and the limiters are unfolded on demand only. *)
Arguments UserRateLimiter.methodTypeMapping : simpl never.
Arguments UserRateLimiter.isGroupType : simpl never.
Arguments UserRateLimiter.consume : simpl never.
Arguments AnonymRateLimiter.consume : simpl never.
Arguments RateLimiterMemory.consume : simpl never.
Arguments RateLimiterMemory.incr : simpl never.
Arguments RateLimiterMemory.consumed : simpl never.
Arguments tierOf : simpl never.

(** ** The window counter *)

Section WindowCounter.

Variables (now : Z) (rl : RateLimiterMemory.t) (key : string).

Lemma incr_value :
  RateLimiterMemory.value (RateLimiterMemory.incr now rl key).1
  = RateLimiterMemory.consumed now rl key + 1.
Proof.
  unfold RateLimiterMemory.incr, RateLimiterMemory.consumed.
  destruct (RateLimiterMemory.storage rl !! _) as [r|]; [|reflexivity].
  destruct (now <? RateLimiterMemory.expiresAt r); reflexivity.
Qed.

(** A draw never fails with an error, and its result reports one point
    more than had been drawn in the open window. *)
Lemma consume_settles :
  exists res,
    consumedPoints res = RateLimiterMemory.consumed now rl key + 1 /\
    ((RateLimiterMemory.consume now rl key).1 = Resolved res \/
     (RateLimiterMemory.consume now rl key).1 = Rejected res).
Proof.
  pose proof incr_value as Hv.
  unfold RateLimiterMemory.consume.
  destruct (RateLimiterMemory.incr now rl key) as [r first]; simpl in *.
  eexists; split; [|destruct (_ <? _); [right|left]; reflexivity].
  exact Hv.
Qed.

(** A draw writes the counter of its own key and nothing else. *)
Lemma consume_storage :
  RateLimiterMemory.storage (RateLimiterMemory.consume now rl key).2
  = <[RateLimiterMemory.getKey rl key := (RateLimiterMemory.incr now rl key).1]>
      (RateLimiterMemory.storage rl).
Proof.
  unfold RateLimiterMemory.consume.
  destruct (RateLimiterMemory.incr now rl key); reflexivity.
Qed.

Lemma consume_config :
  RateLimiterMemory.keyPrefix (RateLimiterMemory.consume now rl key).2
    = RateLimiterMemory.keyPrefix rl /\
  RateLimiterMemory.points (RateLimiterMemory.consume now rl key).2
    = RateLimiterMemory.points rl /\
  RateLimiterMemory.duration (RateLimiterMemory.consume now rl key).2
    = RateLimiterMemory.duration rl.
Proof.
  unfold RateLimiterMemory.consume.
  destruct (RateLimiterMemory.incr now rl key); auto.
Qed.

End WindowCounter.

(** ** The classification table *)

Section ClassificationTable.

Lemma fold_insert_values (P : MethodType -> Prop)
    (entries : list (string * MethodType)) :
  forall acc : gmap string MethodType,
    (forall k v, acc !! k = Some v -> P v) ->
    Forall (fun e => P e.2) entries ->
    forall k v,
      fold_left (fun m kv => <[kv.1 := kv.2]> m) entries acc !! k = Some v -> P v.
Proof.
  induction entries as [|[k0 v0] entries IH]; intros acc Hacc Hall k v; simpl.
  - apply Hacc.
  - inversion Hall as [|? ? Hhd Htl]; subst.
    apply IH; [|assumption].
    intros k' v' Hk'.
    destruct (decide (k0 = k')) as [->|Hne].
    + rewrite lookup_insert_eq in Hk'. by inversion Hk'; subst.
    + rewrite lookup_insert_ne in Hk' by assumption. eauto.
Qed.

Lemma table_entries_One :
  Forall (fun e : string * MethodType => e.2 = One)
         UserRateLimiter.methodTypeMappingObject.
Proof. unfold UserRateLimiter.methodTypeMappingObject. repeat constructor. Qed.

Lemma table_lookup_One (method : string) (tier : MethodType) :
  UserRateLimiter.methodTypeMapping !! method = Some tier -> tier = One.
Proof.
  unfold UserRateLimiter.methodTypeMapping, UserRateLimiter.Map_of_entries.
  apply fold_insert_values with (P := fun t => t = One).
  - intros k v Hk. by rewrite lookup_empty in Hk.
  - apply table_entries_One.
Qed.


Lemma isGroup_absent (method : string) (tier : MethodType) :
  UserRateLimiter.methodTypeMapping !! method = None ->
  UserRateLimiter.isGroupType method tier = false.
Proof. intros H. unfold UserRateLimiter.isGroupType. by rewrite H. Qed.

Lemma isGroupTwo_never (method : string) :
  UserRateLimiter.isGroupTwoMethod method = false.
Proof.
  unfold UserRateLimiter.isGroupTwoMethod, UserRateLimiter.isGroupType.
  destruct (UserRateLimiter.methodTypeMapping !! method) as [t|] eqn:H; [|done].
  by rewrite (table_lookup_One _ _ H).
Qed.

Lemma isGroupThree_never (method : string) :
  UserRateLimiter.isGroupThreeMethod method = false.
Proof.
  unfold UserRateLimiter.isGroupThreeMethod, UserRateLimiter.isGroupType.
  destruct (UserRateLimiter.methodTypeMapping !! method) as [t|] eqn:H; [|done].
  by rewrite (table_lookup_One _ _ H).
Qed.

Lemma consume_absent (now : Z) (l : UserRateLimiter.t) (method : string) :
  UserRateLimiter.methodTypeMapping !! method = None ->
  UserRateLimiter.consume now l method
  = (let '(r, l') := consumeIn Three now l in
     (r, [(Warn, NotConfiguredUsingFallback method)], l')).
Proof.
  intros H. unfold UserRateLimiter.consume, UserRateLimiter.isGroupOneMethod.
  rewrite (isGroup_absent _ One H), isGroupTwo_never, isGroupThree_never.
  reflexivity.
Qed.


End ClassificationTable.


(** ** The fallback for unclassified operations *)

(** C1, counterexample. Under the default configuration "foo" is not
    in the table, and the tier its call is charged to is not one with
    the fewest points: the only such tier is tier One (5 points), the
    call draws from tier Three (10 points). *)
Lemma fallback_is_not_the_most_restrictive_tier :
  UserRateLimiter.methodTypeMapping !! "foo" = None /\
  ~ exists tier, mostRestrictive tier aliceFresh /\ chargedTo tier 0 aliceFresh "foo".
Proof.
  split; [reflexivity|].
  intros [tier [Hmost Hcharged]].
  destruct tier.
  - vm_compute in Hcharged. discriminate Hcharged.
  - specialize (Hmost One). vm_compute in Hmost. by apply Hmost.
  - specialize (Hmost One). vm_compute in Hmost. by apply Hmost.
Qed.


(** ** One-way messages *)

(** C8. A one-way message is answered with the invalid-request
    rejection and changes nothing: no counter of any limiter, no handler
    invocation, no metric. *)
Theorem notification_rejected_without_effect
    (this : GitpodJsonRpcProxyFactory) (method : string) (args : list JS.Value)
    (w : World) :
  onNotification this method args w
  = (Threw (ResponseError InvalidRequest "notifications are not supported" None), w).
Proof. reflexivity. Qed.

(** ** The retry-after value *)

(** The string of a number is never empty, so the [|| 1] of the
    [Retry-After] entry is never taken. *)
Lemma String_nonempty (n : Z) : JS.String_ n <> "".
Proof.
  unfold JS.String_.
  destruct (Z.to_int n) as [u|u]; simpl.
  - destruct u; discriminate.
  - discriminate.
Qed.

Lemma retryAfter_is_the_rounded_string (r : RateLimiterRes) :
  retryAfter r = JS.Str (JS.String_ (JS.Math_round_div (msBeforeNext r) 1000)).
Proof.
  unfold retryAfter, JS.or. simpl.
  destruct (String.eqb_spec (JS.String_ (JS.Math_round_div (msBeforeNext r) 1000)) "")
    as [Heq|Hne]; [|reflexivity].
  by apply String_nonempty in Heq.
Qed.

(** C4, the code at the failing input. Alice has used the five points
    of tier one at time 0; her sixth call, 59.6 seconds later, is
    rejected 400 ms before the refill, and the retry-after value it
    carries is the string "0". *)
Theorem retry_after_zero_near_refill :
  (onRequest aliceConnected.1 "getTerms" [] (exec (advance 59600) aliceExhausted)).1
  = Threw (ResponseError TOO_MANY_REQUESTS "too many requests"
             (Some [("Retry-After", JS.Str "0")])).
Proof. vm_compute. reflexivity. Qed.

(** ** The limiter behind a reference *)

(** Projections of updated worlds, and nothing else, are computed. *)
Ltac proj :=
  cbn [clock process_env anonym_instance_ user_instances metrics servers
       listeners closeCallbacks trace set_clock set_anonym set_users
       set_metrics set_servers set_listeners set_closeCallbacks set_trace
       fst snd] in *.

Ltac run := unfold exec, log, effect, effects, modify, bind, ret in *; proj.

Section LimiterReference.

Lemma invocations_app (w : World) (es : list Effect) :
  List.filter isInvoke (trace w ++ es) = invocations w ++ List.filter isInvoke es.
Proof. unfold invocations. apply List.filter_app. Qed.

Lemma no_invoke_in_logs (entries : list LogEntry) :
  List.filter isInvoke (map (fun e : LogEntry => Log e.1 e.2) entries) = [].
Proof. induction entries as [|e entries IH]; [reflexivity|exact IH]. Qed.

(** The method decides the tier, whatever is logged. *)
Lemma consume_tierOf (now : Z) (l : UserRateLimiter.t) (method : string) :
  exists entries,
    UserRateLimiter.consume now l method
    = (let '(r, l') := consumeIn (tierOf method) now l in (r, entries, l')).
Proof.
  unfold UserRateLimiter.consume, tierOf.
  destruct (UserRateLimiter.isGroupOneMethod method); [by eexists|].
  destruct (UserRateLimiter.isGroupTwoMethod method); [by eexists|].
  destruct (UserRateLimiter.isGroupThreeMethod method); by eexists.
Qed.

Lemma consumeIn_settled (tier : MethodType) (now : Z) (l : UserRateLimiter.t) :
  (consumeIn tier now l).1
  = (RateLimiterMemory.consume now (limiterOf tier l) (UserRateLimiter.user l)).1.
Proof.
  destruct tier; simpl;
    unfold UserRateLimiter.consumeOne, UserRateLimiter.consumeTwo,
           UserRateLimiter.consumeThree;
    destruct (RateLimiterMemory.consume now _ _); reflexivity.
Qed.

(** The metric and the limiter do not interfere. *)
Lemma consume_after_metric (ref : RateLimiterRef) (method : string)
    (m : Metrics) (w : World) :
  RateLimiter_consume ref method (set_metrics m w)
  = (let '(r, w1) := RateLimiter_consume ref method w in (r, set_metrics m w1)).
Proof.
  unfold RateLimiter_consume. destruct ref as [|u]; proj.
  - destruct (anonym_instance_ w) as [a|]; [|reflexivity].
    destruct (AnonymRateLimiter.consume (clock w) a method); reflexivity.
  - destruct (user_instances w !! u) as [l|]; [|reflexivity].
    destruct (UserRateLimiter.consume (clock w) l method) as [[r entries] l'].
    reflexivity.
Qed.

(** What one [consume] through a reference does: it reports one point
    more than had been drawn from the counter it charges, and invokes
    no handler. *)
Lemma RateLimiter_consume_spec (ref : RateLimiterRef) (method : string)
    (w w1 : World) (r : Settled) :
  RateLimiter_consume ref method w = (r, w1) ->
  invocations w1 = invocations w /\
  forall res, r = Resolved res \/ r = Rejected res ->
              consumedPoints res = used ref method w + 1.
Proof.
  unfold RateLimiter_consume, used. destruct ref as [|u].
  - destruct (anonym_instance_ w) as [a|] eqn:Ha.
    + unfold AnonymRateLimiter.consume.
      destruct (consume_settles (clock w) (AnonymRateLimiter.rateLimiter a) method)
        as [res0 [Hpts Hres0]].
      destruct (RateLimiterMemory.consume _ _ _) as [r0 rl'].
      intros [= <- <-]. split; [reflexivity|].
      proj. intros res [->| ->]; destruct Hres0 as [[= <-]|[= <-]];
        exact Hpts.
    + intros [= <- <-]. split; [reflexivity|]. intros res [?|?]; discriminate.
  - destruct (user_instances w !! u) as [l|] eqn:Hl.
    + destruct (consume_tierOf (clock w) l method) as [entries ->].
      pose proof (consumeIn_settled (tierOf method) (clock w) l) as Hs.
      destruct (consume_settles (clock w) (limiterOf (tierOf method) l)
                  (UserRateLimiter.user l)) as [res0 [Hpts Hres0]].
      rewrite <- Hs in Hres0.
      destruct (consumeIn (tierOf method) (clock w) l) as [r0 l'].
      intros [= <- <-]. split.
      * unfold invocations at 1. run.
        rewrite invocations_app, no_invoke_in_logs. apply app_nil_r.
      * proj. intros res [->| ->]; destruct Hres0 as [[= <-]|[= <-]];
          exact Hpts.
    + intros [= <- <-]. split; [reflexivity|]. intros res [?|?]; discriminate.
Qed.

End LimiterReference.

(** A reference handed out by [createRateLimiter] names an object, and
    a call through a reference that names an object settles as the
    limiter decides, never with the failure kept for dangling ones. *)
Section LiveReferences.

Lemma createRateLimiter_live (request : Request) (w : World) :
  live (createRateLimiter request w).1 (createRateLimiter request w).2.
Proof.
  unfold createRateLimiter, UserRateLimiter_instance, AnonymRateLimiter_instance.
  destruct (req_user request) as [id|].
  - destruct (user_instances w !! id) as [l|] eqn:Hl; run; unfold live; proj.
    + rewrite Hl. by eexists.
    + rewrite lookup_insert_eq. by eexists.
  - destruct (anonym_instance_ w) as [a|] eqn:Ha; run; unfold live; proj.
    + rewrite Ha. by eexists.
    + by eexists.
Qed.


End LiveReferences.

(** ** The pipeline of one call *)

(** X5. A call the limiter rejects ends there: whatever the guard
    would say, the caller gets the too-many-requests rejection with the
    retry-after value and the handler is not invoked. *)
Lemma rejected_call_stops_at_the_limiter
    (this : GitpodJsonRpcProxyFactory) (method : string) (args : list JS.Value)
    (w w1 : World) (res : RateLimiterRes) :
  RateLimiter_consume (rateLimiter this) method w = (Rejected res, w1) ->
  exists w',
    onRequest this method args w
      = (Threw (ResponseError TOO_MANY_REQUESTS "too many requests"
                  (Some [("Retry-After", retryAfter res)])), w') /\
    invocations w' = invocations w.
Proof.
  intros Hconsume.
  destruct (RateLimiter_consume_spec _ _ _ _ _ Hconsume) as [Hinv _].
  unfold onRequest. run.
  rewrite consume_after_metric, Hconsume. proj.
  eexists. split; [reflexivity|].
  unfold invocations in *. proj.
  rewrite List.filter_app. cbn [List.filter isInvoke].
  rewrite app_nil_r. exact Hinv.
Qed.


(** C7, counterexample. A failure of the handler that is not a
    [ResponseError] reaches the caller as it was thrown: it is not
    turned into an internal-error rejection, and its message travels
    with it. *)
Lemma plain_error_reaches_caller_unwrapped :
  (onRequest failingConnection.1 "getTerms" [] failingConnection.2).1
    = Threw (PlainError "connect ECONNREFUSED db:5432") /\
  forall message data,
    (onRequest failingConnection.1 "getTerms" [] failingConnection.2).1
    <> Threw (ResponseError InternalError message data).
Proof.
  assert ((onRequest failingConnection.1 "getTerms" [] failingConnection.2).1
          = Threw (PlainError "connect ECONNREFUSED db:5432")) as H
    by (vm_compute; reflexivity).
  split; [exact H|]. intros message data. rewrite H. discriminate.
Qed.

(** C7, amended. Every failure of the handler, structured or not, is
    rethrown by the pipeline as it is; the pipeline only chooses the
    level it is logged at: info for a [ResponseError], error for
    anything else. *)
Theorem handler_failure_is_rethrown_unchanged
    (this : GitpodJsonRpcProxyFactory) (method : string) (args : list JS.Value)
    (w w1 : World) (res : RateLimiterRes) (e : Thrown) :
  RateLimiter_consume (rateLimiter this) method w = (Resolved res, w1) ->
  accessGuard this method = true ->
  operations (target this) method args = HThrow e ->
  exists w',
    onRequest this method args w = (Threw e, w') /\
    last (trace w')
    = Some (match e with
            | ResponseError code message _ =>
                Log Info (Unsuccessful method code message args)
            | _ => Log Error (InternalServerError method e args)
            end).
Proof.
  intros Hconsume Hguard Hfail.
  unfold onRequest, callTarget. run.
  rewrite consume_after_metric, Hconsume. proj.
  rewrite Hguard. cbn [negb].
  destruct (target_session this); proj; rewrite Hfail;
    destruct e; proj; (eexists; split; [reflexivity|proj; apply last_snoc]).
Qed.

Lemma handler_failure_is_rethrown_unchanged_witness :
  exists w',
    onRequest failingConnection.1 "getTerms" [] failingConnection.2
      = (Threw (PlainError "connect ECONNREFUSED db:5432"), w') /\
    last (trace w')
    = Some (Log Error (InternalServerError "getTerms"
                         (PlainError "connect ECONNREFUSED db:5432") [])).
Proof.
  apply (handler_failure_is_rethrown_unchanged failingConnection.1 "getTerms" []
           failingConnection.2
           (exec (RateLimiter_consume AnonymRef "getTerms") failingConnection.2)
           (mkRateLimiterRes 9 60000 1 true)
           (PlainError "connect ECONNREFUSED db:5432")).
  - vm_compute. reflexivity.
  - reflexivity.
  - reflexivity.
Defined.

(** ** The anonymous pool *)

Section AnonymousPool.

Lemma getKey_inj (rl : RateLimiterMemory.t) (k1 k2 : string) :
  RateLimiterMemory.getKey rl k1 = RateLimiterMemory.getKey rl k2 -> k1 = k2.
Proof.
  unfold RateLimiterMemory.getKey.
  destruct (String.eqb _ ""); [done|].
  intros H. apply (inj (String.append _)) in H.
  by apply (inj (String.append ":")) in H.
Qed.

(** In a window of positive length a draw is seen by the next reader
    of the same key. *)
Lemma consumed_after_consume (now : Z) (rl : RateLimiterMemory.t) (key : string) :
  0 < RateLimiterMemory.duration rl ->
  RateLimiterMemory.consumed now (RateLimiterMemory.consume now rl key).2 key
  = RateLimiterMemory.consumed now rl key + 1.
Proof.
  intros Hd.
  unfold RateLimiterMemory.consumed, RateLimiterMemory.consume, RateLimiterMemory.incr.
  destruct (RateLimiterMemory.storage rl !! RateLimiterMemory.getKey rl key)
    as [r|] eqn:Hr.
  - destruct (now <? RateLimiterMemory.expiresAt r) eqn:Hopen;
      cbn [snd RateLimiterMemory.storage]; unfold RateLimiterMemory.getKey at 1;
      cbn [RateLimiterMemory.keyPrefix]; fold (RateLimiterMemory.getKey rl key);
      rewrite lookup_insert_eq; cbn [RateLimiterMemory.expiresAt RateLimiterMemory.value].
    + by rewrite Hopen.
    + assert ((now <? now + RateLimiterMemory.duration rl * 1000) = true) as ->
        by (apply Z.ltb_lt; lia).
      reflexivity.
  - cbn [snd RateLimiterMemory.storage]; unfold RateLimiterMemory.getKey at 1;
      cbn [RateLimiterMemory.keyPrefix]; fold (RateLimiterMemory.getKey rl key);
      rewrite lookup_insert_eq; cbn [RateLimiterMemory.expiresAt RateLimiterMemory.value].
    assert ((now <? now + RateLimiterMemory.duration rl * 1000) = true) as ->
      by (apply Z.ltb_lt; lia).
    reflexivity.
Qed.

(** A draw leaves the counters of all other keys alone. *)
Lemma consumed_other_key (now : Z) (rl : RateLimiterMemory.t) (key other : string) :
  other <> key ->
  RateLimiterMemory.consumed now (RateLimiterMemory.consume now rl key).2 other
  = RateLimiterMemory.consumed now rl other.
Proof.
  intros Hne.
  unfold RateLimiterMemory.consumed.
  rewrite consume_storage.
  assert (RateLimiterMemory.getKey (RateLimiterMemory.consume now rl key).2 other
          = RateLimiterMemory.getKey rl other) as ->.
  { unfold RateLimiterMemory.getKey.
    by rewrite (proj1 (consume_config now rl key)). }
  rewrite lookup_insert_ne; [reflexivity|].
  intros Heq. apply Hne. symmetry. by apply getKey_inj in Heq.
Qed.


Lemma anonymous_draw (w : World) (a : AnonymRateLimiter.t) (method : string) :
  anonym_instance_ w = Some a ->
  0 < RateLimiterMemory.duration (AnonymRateLimiter.rateLimiter a) ->
  used AnonymRef method (exec (RateLimiter_consume AnonymRef method) w)
    = used AnonymRef method w + 1 /\
  forall other, other <> method ->
    used AnonymRef other (exec (RateLimiter_consume AnonymRef method) w)
    = used AnonymRef other w.
Proof.
  intros Ha Hd.
  pose proof (consumed_after_consume (clock w) (AnonymRateLimiter.rateLimiter a)
                method Hd) as Hsame.
  pose proof (fun other => consumed_other_key (clock w)
                (AnonymRateLimiter.rateLimiter a) method other) as Hother.
  unfold used, exec, RateLimiter_consume, AnonymRateLimiter.consume.
  rewrite Ha.
  destruct (RateLimiterMemory.consume (clock w) (AnonymRateLimiter.rateLimiter a) method)
    as [r rl'].
  proj. split; [exact Hsame|exact Hother].
Qed.

End AnonymousPool.



(** ** The live-connection set *)

Section LiveSet.

Context {A : Type} (p : A -> bool).

Lemma findIndex_ge (l : list A) : -1 <= findIndex p l.
Proof.
  induction l as [|x l IH]; cbn [findIndex]; [lia|].
  destruct (p x); [lia|]. destruct (findIndex p l =? -1) eqn:E; lia.
Qed.

Lemma findIndex_absent (l : list A) :
  findIndex p l = -1 <-> existsb p l = false.
Proof.
  induction l as [|x l IH]; cbn [findIndex existsb]; [done|].
  pose proof (findIndex_ge l) as Hge.
  destruct (p x); cbn [orb]; [split; [lia|discriminate]|].
  destruct (findIndex p l =? -1) eqn:E.
  - apply Z.eqb_eq in E. split; [intros _; by apply IH|done].
  - apply Z.eqb_neq in E. rewrite <- IH. split; [lia|done].
Qed.

(** What [splice(index)] leaves holds no element satisfying [p]. *)
Lemma splice_findIndex (l : list A) :
  existsb p (splice1 (findIndex p l) l) = false.
Proof.
  unfold splice1.
  induction l as [|x l IH]; cbn [findIndex]; [reflexivity|].
  pose proof (findIndex_ge l) as Hge.
  destruct (p x) eqn:Hx; [reflexivity|].
  destruct (findIndex p l =? -1) eqn:E; [reflexivity|].
  apply Z.eqb_neq in E.
  replace (Z.to_nat (findIndex p l + 1)) with (S (Z.to_nat (findIndex p l))) by lia.
  cbn [take existsb]. by rewrite Hx, IH.
Qed.

(** The first element satisfying [p] takes everything after it along. *)
Lemma splice_first_match (before after : list A) (x : A) :
  existsb p before = false -> p x = true ->
  splice1 (findIndex p (before ++ x :: after)) (before ++ x :: after) = before.
Proof.
  unfold splice1. intros Hb Hx.
  induction before as [|y before IH]; cbn [app findIndex].
  - by rewrite Hx.
  - cbn [existsb] in Hb. apply orb_false_iff in Hb as [Hy Hb].
    rewrite Hy. specialize (IH Hb).
    pose proof (findIndex_ge (before ++ x :: after)) as Hge.
    destruct (findIndex p (before ++ x :: after) =? -1) eqn:E.
    + apply Z.eqb_eq, findIndex_absent in E.
      rewrite existsb_app in E. cbn [existsb] in E.
      rewrite Hx, orb_true_r in E. discriminate.
    + apply Z.eqb_neq in E.
      replace (Z.to_nat (findIndex p (before ++ x :: after) + 1))
        with (S (Z.to_nat (findIndex p (before ++ x :: after)))) by lia.
      cbn [take]. by rewrite IH.
Qed.

End LiveSet.

Section Closing.

Variables (srv : GitpodServerImpl) (w : World).

Lemma removeServer_unregisters :
  registered (uuid srv) (exec (removeServer srv) w) = false.
Proof.
  unfold registered, exec, removeServer.
  destruct (findIndex _ (servers w) =? -1) eqn:E; cbn [negb snd]; proj.
  - by apply Z.eqb_eq, findIndex_absent in E.
  - apply splice_findIndex.
Qed.

(** Removing a server that is not registered changes nothing. *)
Lemma removeServer_absent :
  registered (uuid srv) w = false -> exec (removeServer srv) w = w.
Proof.
  unfold registered, exec, removeServer. intros H.
  apply findIndex_absent in H. by rewrite H.
Qed.

(** X18. [removeServer] keeps exactly the servers registered before
    the first one with the given identifier: that server and every
    server registered after it leave the live set. *)
Lemma removeServer_drops_the_tail (before after : list GitpodServerImpl) :
  servers w = before ++ srv :: after ->
  existsb (fun s => String.eqb (uuid s) (uuid srv)) before = false ->
  servers (exec (removeServer srv) w) = before.
Proof.
  intros Hs Hb. unfold exec, removeServer. rewrite Hs.
  pose proof (splice_first_match (fun s => String.eqb (uuid s) (uuid srv))
                before after srv Hb (String.eqb_refl _)) as Hsplice.
  destruct (findIndex _ (before ++ srv :: after) =? -1) eqn:E; cbn [negb snd]; proj.
  - apply Z.eqb_eq, findIndex_absent in E.
    rewrite existsb_app in E. cbn [existsb] in E.
    rewrite String.eqb_refl, orb_true_r in E. discriminate.
  - exact Hsplice.
Qed.

Lemma callback_servers :
  servers (exec (onDidCloseConnection_callback srv) w)
  = servers (exec (removeServer srv) w).
Proof.
  unfold onDidCloseConnection_callback, emit. run.
  unfold removeServer. proj.
  destruct (findIndex _ (servers w) =? -1); reflexivity.
Qed.

Lemma callback_metrics :
  metrics (exec (onDidCloseConnection_callback srv) w) = metrics w.
Proof.
  unfold onDidCloseConnection_callback, emit. run.
  unfold removeServer. proj.
  destruct (findIndex _ (servers w) =? -1); reflexivity.
Qed.

Lemma no_emit_in_notifications (event : EventName) (id : string)
    (called : list (EventName * Listener)) :
  List.filter (isEmitOf event id)
    (map (fun el : EventName * Listener => Notify el.2 event id) called) = [].
Proof. induction called as [|el called IH]; [reflexivity|exact IH]. Qed.

(** Each run of the callback emits the closed notification once. *)
Lemma callback_emits_once :
  emissions EVENT_CONNECTION_CLOSED (uuid srv)
    (exec (onDidCloseConnection_callback srv) w)
  = S (emissions EVENT_CONNECTION_CLOSED (uuid srv) w).
Proof.
  unfold emissions, onDidCloseConnection_callback, emit. run.
  unfold removeServer. proj.
  destruct (findIndex _ (servers w) =? -1); cbn [negb]; proj;
    rewrite !List.filter_app, no_emit_in_notifications;
    cbn [List.filter isEmitOf EventName_eqb andb];
    rewrite String.eqb_refl, !length_app; cbn [length]; lia.
Qed.

End Closing.

(** C5, the code at the failing input. Three connections a, b and c
    are live; the connection of a closes.  The live set is then empty:
    b and c, which are still open, are gone from it with a. *)
Theorem closing_first_connection_empties_live_set :
  map uuid (servers threeConnections) = ["a"; "b"; "c"] /\
  map uuid (servers (exec (didCloseConnection "client-a") threeConnections)) = [] /\
  currentConnectionCount (exec (didCloseConnection "client-a") threeConnections) = 0.
Proof. vm_compute. repeat split. Qed.

(** C6, counterexample. With one observer subscribed, two close
    signals for the one connection make two emissions of the closed
    notification, and the observer is told twice. *)
Lemma two_close_signals_notify_twice :
  let w2 := exec (didCloseConnection "client-a";; didCloseConnection "client-a")
                 observedConnection in
  emissions EVENT_CONNECTION_CLOSED "a" w2 = 2%nat /\
  notifications "observer" EVENT_CONNECTION_CLOSED "a" w2 = 2%nat /\
  emissions EVENT_CONNECTION_CLOSED "a" w2 <> 1%nat.
Proof. vm_compute. repeat split. discriminate. Qed.

(** C6, amended. When the close callback of a connection runs twice, the
    first run leaves no server with the connection's identifier in the
    live set and the second run removes nothing; each run emits the
    closed notification once, two emissions in total. *)
Theorem second_close_removes_nothing_and_notifies_again
    (srv : GitpodServerImpl) (w : World) :
  let w1 := exec (onDidCloseConnection_callback srv) w in
  let w2 := exec (onDidCloseConnection_callback srv) w1 in
  registered (uuid srv) w1 = false /\
  servers w2 = servers w1 /\
  emissions EVENT_CONNECTION_CLOSED (uuid srv) w1
    = S (emissions EVENT_CONNECTION_CLOSED (uuid srv) w) /\
  emissions EVENT_CONNECTION_CLOSED (uuid srv) w2
    = S (S (emissions EVENT_CONNECTION_CLOSED (uuid srv) w)).
Proof.
  cbv zeta.
  assert (registered (uuid srv) (exec (onDidCloseConnection_callback srv) w) = false)
    as Hgone.
  { unfold registered. rewrite callback_servers. apply removeServer_unregisters. }
  split; [exact Hgone|]. split.
  - rewrite (callback_servers srv (exec (onDidCloseConnection_callback srv) w)).
    by rewrite (removeServer_absent _ _ Hgone).
  - split; [apply callback_emits_once|].
    by rewrite !callback_emits_once.
Qed.

(** ** The connection counters *)

Section ConnectionCounters.

(** Establishing a connection reports to no counter. *)
Lemma onConnection_metrics (fresh : GitpodServerImpl) (client : Client)
    (request : Request) (w : World) :
  metrics (onConnection fresh client request w).2 = metrics w.
Proof.
  unfold onConnection, createRateLimiter, createProxyTarget, emit.
  destruct (req_user request) as [id|].
  - unfold UserRateLimiter_instance. run.
    destruct (user_instances w !! id); reflexivity.
  - unfold AnonymRateLimiter_instance. run.
    destruct (anonym_instance_ w); reflexivity.
Qed.

(** Subscribing an observer does. *)
Lemma onConnectionCreated_counter (l : Listener) (w : World) :
  apiConnectionCounter (metrics (exec (onConnectionCreated l) w))
  = apiConnectionCounter (metrics w) + 1.
Proof. reflexivity. Qed.

Lemma onConnectionClosed_counter (l : Listener) (w : World) :
  apiConnectionClosedCounter (metrics (exec (onConnectionClosed l) w))
  = apiConnectionClosedCounter (metrics w) + 1.
Proof. reflexivity. Qed.

End ConnectionCounters.

(** C9, the code at the failing input. Three connections are
    established and one of them is closed, and both counters still read
    zero; one observer subscribes to each notification while no
    connection exists, and both counters read one. *)
Theorem connection_counters_count_subscriptions :
  currentConnectionCount threeConnections = 3 /\
  apiConnectionCounter (metrics threeConnections) = 0 /\
  apiConnectionClosedCounter
    (metrics (exec (didCloseConnection "client-c") threeConnections)) = 0 /\
  (let w := exec (onConnectionCreated "observer";; onConnectionClosed "observer")
                 (initialWorld emptyEnv) in
   currentConnectionCount w = 0 /\
   apiConnectionCounter (metrics w) = 1 /\
   apiConnectionClosedCounter (metrics w) = 1).
Proof. vm_compute. repeat split. Qed.

(** * Further properties of the pipeline *)

(** Every branch of [onRequest], one goal each. *)
Ltac pipeline this method args w :=
  unfold onRequest, callTarget; run;
  rewrite consume_after_metric;
  destruct (RateLimiter_consume (rateLimiter this) method w) as [[?res|?res|?msg] ?w1];
  proj;
  [ destruct (accessGuard this method); cbn [negb];
    [ destruct (target_session this); proj;
      (destruct (operations (target this) method args) as [?v|[?c ?m ?d|?m|?v]]; proj)
    | proj ]
  | | ].

Section PipelineFrame.

Variables (this : GitpodJsonRpcProxyFactory) (method : string) (args : list JS.Value).

(** The limiter reads and writes the limiters and the log only. *)
Lemma RateLimiter_consume_frame (ref : RateLimiterRef) (w : World) :
  let w1 := (RateLimiter_consume ref method w).2 in
  clock w1 = clock w /\ metrics w1 = metrics w /\ servers w1 = servers w /\
  listeners w1 = listeners w /\ closeCallbacks w1 = closeCallbacks w.
Proof.
  cbv zeta. unfold RateLimiter_consume. destruct ref as [|u].
  - destruct (anonym_instance_ w) as [a|]; [|by repeat split].
    destruct (AnonymRateLimiter.consume (clock w) a method). by repeat split.
  - destruct (user_instances w !! u) as [l|]; [|by repeat split].
    destruct (UserRateLimiter.consume (clock w) l method) as [[r entries] l'].
    by repeat split.
Qed.

Lemma onRequest_metrics (w : World) :
  metrics (onRequest this method args w).2
  = increaseApiCallCounter method (metrics w).
Proof.
  pose proof (RateLimiter_consume_frame (rateLimiter this) w) as Hf.
  cbv zeta in Hf. destruct Hf as [_ [Hm _]].
  pipeline this method args w; cbn [snd] in Hm; by rewrite ?Hm.
Qed.

Lemma onRequest_limiters (w : World) :
  anonym_instance_ (onRequest this method args w).2
    = anonym_instance_ (RateLimiter_consume (rateLimiter this) method w).2 /\
  user_instances (onRequest this method args w).2
    = user_instances (RateLimiter_consume (rateLimiter this) method w).2.
Proof. pipeline this method args w; by split. Qed.

End PipelineFrame.

(** X1. Whatever the guard decides and however the handler ends, a call
    leaves the limiters exactly as its one [consume] leaves them: a
    denied or failing call costs the caller a point like any other, and
    no call costs more than one [consume]. *)
Theorem every_call_is_charged_once
    (this : GitpodJsonRpcProxyFactory) (method : string) (args : list JS.Value)
    (w : World) :
  anonym_instance_ (onRequest this method args w).2
    = anonym_instance_ (RateLimiter_consume (rateLimiter this) method w).2 /\
  user_instances (onRequest this method args w).2
    = user_instances (RateLimiter_consume (rateLimiter this) method w).2 /\
  clock (onRequest this method args w).2 = clock w.
Proof.
  split; [apply onRequest_limiters|]. split; [apply onRequest_limiters|].
  pose proof (RateLimiter_consume_frame method (rateLimiter this) w) as Hf.
  cbv zeta in Hf. destruct Hf as [Hc _].
  pipeline this method args w; cbn [snd] in Hc; exact Hc.
Qed.

(** X2. A call changes neither the live set nor the subscriptions nor
    the close callbacks, however it ends. *)
Theorem call_leaves_registry_unchanged
    (this : GitpodJsonRpcProxyFactory) (method : string) (args : list JS.Value)
    (w : World) :
  servers (onRequest this method args w).2 = servers w /\
  listeners (onRequest this method args w).2 = listeners w /\
  closeCallbacks (onRequest this method args w).2 = closeCallbacks w.
Proof.
  pose proof (RateLimiter_consume_frame method (rateLimiter this) w) as Hf.
  cbv zeta in Hf. destruct Hf as [_ [_ [Hs [Hl Hc]]]].
  pipeline this method args w; cbn [snd] in Hs, Hl, Hc; by repeat split.
Qed.

(** X3. The handler is invoked exactly when the limiter admits the call
    and the function guard allows it, then once and with the method and
    the arguments of the call; in every other case it is not invoked. *)
Theorem handler_invoked_iff_admitted_and_allowed
    (this : GitpodJsonRpcProxyFactory) (method : string) (args : list JS.Value)
    (w : World) :
  invocations (onRequest this method args w).2
  = invocations w
    ++ match (RateLimiter_consume (rateLimiter this) method w).1 with
       | Resolved _ =>
           if accessGuard this method
           then [Invoke (uuid (target this)) method args] else []
       | _ => []
       end.
Proof.
  pose proof (fun r w1 => RateLimiter_consume_spec (rateLimiter this) method w w1 r) as Hspec.
  unfold invocations in *.
  pipeline this method args w;
    destruct (Hspec _ _ eq_refl) as [Hinv _];
    rewrite ?List.filter_app; cbn [List.filter isInvoke];
    rewrite ?app_nil_r, Hinv; reflexivity.
Qed.

(** X4. When the limiter admits a call, the guard allows it and the
    operation of the handler returns, the caller receives that result
    unchanged. *)
Theorem admitted_allowed_call_returns_handler_result
    (this : GitpodJsonRpcProxyFactory) (method : string) (args : list JS.Value)
    (w w1 : World) (res : RateLimiterRes) (v : JS.Value) :
  RateLimiter_consume (rateLimiter this) method w = (Resolved res, w1) ->
  accessGuard this method = true ->
  operations (target this) method args = HReturn v ->
  (onRequest this method args w).1 = Returned v.
Proof.
  intros Hconsume Hguard Hreturn.
  unfold onRequest, callTarget. run.
  rewrite consume_after_metric, Hconsume. proj.
  rewrite Hguard. cbn [negb].
  destruct (target_session this); proj; by rewrite Hreturn.
Qed.

Lemma admitted_allowed_call_returns_handler_result_witness :
  (onRequest aliceConnected.1 "getTerms" [] aliceConnected.2).1
  = Returned JS.Undefined.
Proof.
  apply (admitted_allowed_call_returns_handler_result aliceConnected.1 "getTerms" []
           aliceConnected.2
           (exec (RateLimiter_consume (UserRef "alice") "getTerms") aliceConnected.2)
           (mkRateLimiterRes 4 60000 1 true) JS.Undefined).
  - vm_compute. reflexivity.
  - reflexivity.
  - reflexivity.
Defined.

Lemma rejected_call_stops_at_the_limiter_witness :
  exists w',
    onRequest aliceConnected.1 "getTerms" [] aliceExhausted
      = (Threw (ResponseError TOO_MANY_REQUESTS "too many requests"
                  (Some [("Retry-After", retryAfter (mkRateLimiterRes 0 60000 6 false))])),
         w') /\
    invocations w' = invocations aliceExhausted.
Proof.
  apply (rejected_call_stops_at_the_limiter aliceConnected.1 "getTerms" []
           aliceExhausted
           (exec (RateLimiter_consume (UserRef "alice") "getTerms") aliceExhausted)
           (mkRateLimiterRes 0 60000 6 false)).
  vm_compute. reflexivity.
Defined.

(** ** The call counter *)

Section CallCounter.

Lemma callCount_inc_same (method : string) (m : Metrics) :
  default 0 (apiCallCounter (increaseApiCallCounter method m) !! method)
  = default 0 (apiCallCounter m !! method) + 1.
Proof.
  unfold increaseApiCallCounter, inc. cbn [apiCallCounter].
  by rewrite lookup_insert_eq.
Qed.

Lemma callCount_inc_other (method other : string) (m : Metrics) :
  other <> method ->
  default 0 (apiCallCounter (increaseApiCallCounter other m) !! method)
  = default 0 (apiCallCounter m !! method).
Proof.
  intros Hne. unfold increaseApiCallCounter, inc. cbn [apiCallCounter].
  by rewrite lookup_insert_ne.
Qed.

End CallCounter.

(** X7. After any sequence of calls on a connection the call counter of
    each operation has grown by the number of calls of that operation in
    the sequence, whether they were served, rejected, denied or failed;
    the connection counters have not moved. *)
Theorem call_counter_counts_every_call
    (this : GitpodJsonRpcProxyFactory) (calls : list (string * list JS.Value))
    (method : string) (w : World) :
  callCount method (exec (requests this calls) w)
    = callCount method w + callsOf method calls /\
  apiConnectionCounter (metrics (exec (requests this calls) w))
    = apiConnectionCounter (metrics w) /\
  apiConnectionClosedCounter (metrics (exec (requests this calls) w))
    = apiConnectionClosedCounter (metrics w).
Proof.
  revert w. induction calls as [|[m args] calls IH]; intros w.
  - unfold callsOf. cbn. repeat split; lia.
  - unfold exec in *. cbn [requests]. unfold bind. cbn [fst snd].
    pose proof (onRequest_metrics this m args w) as Hm.
    destruct (onRequest this m args w) as [out w1]. cbn [snd] in Hm.
    destruct (IH w1) as [Hcount [Hcreated Hclosed]].
    rewrite Hcount, Hcreated, Hclosed. unfold callCount. rewrite Hm.
    split; [|by split].
    unfold callsOf. cbn [List.filter fst].
    destruct (String.eqb_spec m method) as [->|Hne].
    + rewrite callCount_inc_same. cbn [length]. lia.
    + rewrite (callCount_inc_other method m) by assumption. lia.
Qed.

(** ** The limiter instances *)

Section Instances.

Lemma createRateLimiter_keeps (request : Request) (w : World)
    (ref : RateLimiterRef) (x : Limiter) :
  instanceOf ref w = Some x ->
  instanceOf ref (createRateLimiter request w).2 = Some x.
Proof.
  unfold createRateLimiter, UserRateLimiter_instance, AnonymRateLimiter_instance.
  intros Hx. destruct (req_user request) as [id|].
  - destruct (user_instances w !! id) as [l|] eqn:Hl; [exact Hx|].
    run. destruct ref as [|u]; unfold instanceOf in *; proj; [exact Hx|].
    destruct (decide (id = u)) as [->|Hne].
    + rewrite Hl in Hx. discriminate.
    + by rewrite lookup_insert_ne.
  - destruct (anonym_instance_ w) as [a|] eqn:Ha; [exact Hx|].
    destruct ref as [|u]; unfold instanceOf in *; proj; [|exact Hx].
    rewrite Ha in Hx. discriminate.
Qed.

Lemma createProxyTarget_instances (fresh : GitpodServerImpl) (client : Client)
    (request : Request) (w : World) (ref : RateLimiterRef) :
  instanceOf ref (createProxyTarget fresh client request w).2 = instanceOf ref w.
Proof. destruct ref; reflexivity. Qed.

Lemma onConnection_keeps (fresh : GitpodServerImpl) (client : Client)
    (request : Request) (w : World) (ref : RateLimiterRef) (x : Limiter) :
  instanceOf ref w = Some x ->
  instanceOf ref (onConnection fresh client request w).2 = Some x.
Proof.
  intros Hx. apply (createRateLimiter_keeps request) in Hx.
  unfold onConnection, bind, ret.
  destruct (createRateLimiter request w) as [limiter w1]. cbn [snd] in Hx.
  pose proof (createProxyTarget_instances fresh client request w1 ref) as Hp.
  destruct (createProxyTarget fresh client request w1) as [server w2].
  cbn [snd] in *. by rewrite Hp.
Qed.

Lemma callback_instances (srv : GitpodServerImpl) (w : World) (ref : RateLimiterRef) :
  instanceOf ref (exec (onDidCloseConnection_callback srv) w) = instanceOf ref w.
Proof.
  unfold onDidCloseConnection_callback, emit. run. unfold removeServer. proj.
  destruct (findIndex _ (servers w) =? -1); destruct ref; reflexivity.
Qed.

Lemma didCloseConnection_instances (client : Client) (w : World) (ref : RateLimiterRef) :
  instanceOf ref (exec (didCloseConnection client) w) = instanceOf ref w.
Proof.
  unfold didCloseConnection, exec at 1. cbn [snd].
  generalize (closeCallbacks w) as cbs. intros cbs. revert w.
  induction cbs as [|cb cbs IH]; intros w; cbn [fold_left]; [reflexivity|].
  rewrite IH. destruct (String.eqb _ client); [|reflexivity].
  apply callback_instances.
Qed.

(** X9. A call is charged to the limiter of its own connection only: the
    limiter of every other actor, with all its counters, is as it was
    before the call. *)
Theorem call_charges_only_the_callers_limiter
    (this : GitpodJsonRpcProxyFactory) (method : string)
    (args : list JS.Value) (w : World) (ref : RateLimiterRef) :
  rateLimiter this <> ref ->
  instanceOf ref (onRequest this method args w).2 = instanceOf ref w.
Proof.
  intros Hne.
  destruct (onRequest_limiters this method args w) as [Ha Hu].
  unfold instanceOf. destruct ref as [|v]; rewrite ?Ha, ?Hu;
    unfold RateLimiter_consume; destruct (rateLimiter this) as [|u].
  - by destruct Hne.
  - destruct (user_instances w !! u) as [l|]; [|reflexivity].
    by destruct (UserRateLimiter.consume (clock w) l method) as [[r entries] l'].
  - destruct (anonym_instance_ w) as [a|]; [|reflexivity].
    by destruct (AnonymRateLimiter.consume (clock w) a method).
  - destruct (user_instances w !! u) as [l|]; [|reflexivity].
    destruct (UserRateLimiter.consume (clock w) l method) as [[r entries] l'].
    proj. rewrite lookup_insert_ne; [reflexivity|]. intros ->. by apply Hne.
Qed.

End Instances.

(** X10. A second [createRateLimiter] for the same request finds the
    limiter the first one returned: it returns the same object and
    changes nothing, so nothing is created or logged twice. *)
Theorem limiter_is_created_once (request : Request) (w : World) :
  createRateLimiter request (createRateLimiter request w).2
  = createRateLimiter request w.
Proof.
  unfold createRateLimiter, UserRateLimiter_instance, AnonymRateLimiter_instance.
  destruct (req_user request) as [id|].
  - destruct (user_instances w !! id) as [l|] eqn:Hl; proj.
    + by rewrite Hl.
    + run. by rewrite lookup_insert_eq.
  - destruct (anonym_instance_ w) as [a|] eqn:Ha; proj.
    + by rewrite Ha.
    + reflexivity.
Qed.

Lemma call_charges_only_the_callers_limiter_witness :
  instanceOf (UserRef "bob") (onRequest aliceAndBob.1.1 "getTerms" [] aliceAndBob.2).2
  = instanceOf (UserRef "bob") aliceAndBob.2.
Proof.
  apply (call_charges_only_the_callers_limiter aliceAndBob.1.1 "getTerms" []
           aliceAndBob.2 (UserRef "bob")).
  vm_compute. discriminate.
Defined.

(** X11. Limiters are never evicted or reset: a limiter that exists, with
    the points drawn from it, is still the same after any connection
    has closed and any connection, of the same actor or another, has
    been established. *)
Theorem limiters_survive_close_and_reconnect
    (ref : RateLimiterRef) (w : World) (closed : Client)
    (fresh : GitpodServerImpl) (client : Client) (request : Request) :
  live ref w ->
  instanceOf ref (onConnection fresh client request (exec (didCloseConnection closed) w)).2
  = instanceOf ref w.
Proof.
  intros Hlive.
  assert (exists x, instanceOf ref w = Some x) as [x Hx].
  { unfold live, instanceOf in *.
    destruct ref as [|u]; destruct Hlive as [y Hy]; rewrite Hy; by eexists. }
  rewrite Hx. apply onConnection_keeps.
  by rewrite didCloseConnection_instances.
Qed.

Lemma limiters_survive_close_and_reconnect_witness :
  instanceOf (UserRef "alice")
    (onConnection (newServer "a2") "client-a2" (loggedIn "alice")
       (exec (didCloseConnection "client-a") aliceExhausted)).2
  = instanceOf (UserRef "alice") aliceExhausted.
Proof.
  apply (limiters_survive_close_and_reconnect (UserRef "alice") aliceExhausted
           "client-a" (newServer "a2") "client-a2" (loggedIn "alice")).
  vm_compute. eexists. reflexivity.
Defined.

(** ** The configured quotas *)

Lemma num_or_nonzero (x : JS.Num) (d : Z) : d <> 0 -> JS.num_or x d <> 0.
Proof.
  intros Hd. unfold JS.num_or. destruct x as [|z]; [exact Hd|].
  destruct (z =? 0) eqn:E; [exact Hd|]. by apply Z.eqb_neq.
Qed.

(** X12. Whatever the environment holds, no limiter is created with zero
    points or a window of zero length: an entry that is unset, not a
    number or zero gives way to the default. *)
Theorem quotas_are_never_zero (env : Env) (user : string) (tier : MethodType) :
  RateLimiterMemory.points (limiterOf tier (UserRateLimiter.new env user)) <> 0 /\
  RateLimiterMemory.duration (limiterOf tier (UserRateLimiter.new env user)) <> 0 /\
  RateLimiterMemory.points
    (AnonymRateLimiter.rateLimiter (AnonymRateLimiter.new env)) <> 0 /\
  RateLimiterMemory.duration
    (AnonymRateLimiter.rateLimiter (AnonymRateLimiter.new env)) <> 0.
Proof.
  destruct tier; cbn; repeat split; apply num_or_nonzero; lia.
Qed.

(** ** Subscriptions and notifications *)

Section Subscriptions.

Variables (event : EventName) (l : Listener).

Lemma EventName_eqb_eq (a b : EventName) : EventName_eqb a b = true <-> a = b.
Proof. destruct a, b; split; (reflexivity || discriminate). Qed.

Lemma count_reverse {A} (p : A -> bool) (ls : list A) :
  length (List.filter p (reverse ls)) = length (List.filter p ls).
Proof.
  induction ls as [|x ls IH]; [reflexivity|].
  rewrite reverse_cons, List.filter_app, length_app, IH.
  cbn [List.filter]. destruct (p x); cbn [length]; lia.
Qed.

Lemma remove_first_count (ls : list (EventName * Listener)) :
  length (List.filter (fun el : EventName * Listener =>
                         EventName_eqb el.1 event && String.eqb el.2 l)
            (remove_first event l ls))
  = Nat.pred (length (List.filter (fun el : EventName * Listener =>
                                     EventName_eqb el.1 event && String.eqb el.2 l)
                        ls)).
Proof.
  induction ls as [|el ls IH]; [reflexivity|].
  cbn [remove_first List.filter].
  destruct (EventName_eqb el.1 event && String.eqb el.2 l) eqn:E.
  - reflexivity.
  - cbn [List.filter]. by rewrite E.
Qed.

Lemma remove_first_count_other (event' : EventName) (l' : Listener)
    (ls : list (EventName * Listener)) :
  (event', l') <> (event, l) ->
  length (List.filter (fun el : EventName * Listener =>
                         EventName_eqb el.1 event' && String.eqb el.2 l')
            (remove_first event l ls))
  = length (List.filter (fun el : EventName * Listener =>
                           EventName_eqb el.1 event' && String.eqb el.2 l') ls).
Proof.
  intros Hne.
  induction ls as [|el ls IH]; [reflexivity|].
  cbn [remove_first List.filter].
  destruct (EventName_eqb el.1 event && String.eqb el.2 l) eqn:E.
  - apply andb_true_iff in E as [He Hl].
    apply EventName_eqb_eq in He. apply String.eqb_eq in Hl.
    destruct (EventName_eqb el.1 event' && String.eqb el.2 l') eqn:E'; [|reflexivity].
    apply andb_true_iff in E' as [He' Hl'].
    apply EventName_eqb_eq in He'. apply String.eqb_eq in Hl'.
    destruct Hne. congruence.
  - cbn [List.filter].
    destruct (EventName_eqb el.1 event' && String.eqb el.2 l'); cbn [length];
      by rewrite IH.
Qed.

(** An emission tells each listener as often as it is subscribed. *)
Lemma notified_by_emission (id : string) (ls : list (EventName * Listener)) :
  length (List.filter (isNotifyOf l event id)
            (map (fun el : EventName * Listener => Notify el.2 event id)
                 (filter (fun el : EventName * Listener =>
                            EventName_eqb el.1 event = true) ls)))
  = length (List.filter (fun el : EventName * Listener =>
                           EventName_eqb el.1 event && String.eqb el.2 l) ls).
Proof.
  induction ls as [|el ls IH]; [reflexivity|].
  rewrite filter_cons. cbn [List.filter].
  destruct (decide (EventName_eqb el.1 event = true)) as [He|He].
  - rewrite He. cbn [map List.filter isNotifyOf andb].
    assert (EventName_eqb event event = true) as -> by by apply EventName_eqb_eq.
    rewrite String.eqb_refl, !andb_true_r. cbn [andb].
    destruct (String.eqb el.2 l); cbn [length]; by rewrite IH.
  - apply not_true_is_false in He. rewrite He. cbn [andb]. exact IH.
Qed.

(** An emission of another event tells nobody of this one. *)
Lemma not_notified_by_other_emission (event' : EventName) (id id' : string)
    (called : list (EventName * Listener)) :
  event' <> event ->
  List.filter (isNotifyOf l event id)
    (map (fun el : EventName * Listener => Notify el.2 event' id') called) = [].
Proof.
  intros Hne. induction called as [|el called IH]; [reflexivity|].
  cbn [map List.filter isNotifyOf].
  assert (EventName_eqb event' event = false) as ->.
  { apply not_true_is_false. by rewrite EventName_eqb_eq. }
  by rewrite andb_false_r.
Qed.

End Subscriptions.

(** X13. Subscribing and then disposing the subscription leaves the
    listeners as they were, for created and for closed notifications
    alike. *)
Theorem subscribe_then_dispose_restores_listeners (l : Listener) (w : World) :
  listeners (exec (let* d := onConnectionCreated l in dispose d) w) = listeners w /\
  listeners (exec (let* d := onConnectionClosed l in dispose d) w) = listeners w.
Proof.
  unfold onConnectionCreated, onConnectionClosed, dispose, on, off. run.
  rewrite !reverse_snoc.
  cbn [remove_first EventName_eqb fst snd andb disp_event disp_listener].
  rewrite !String.eqb_refl. cbv iota. rewrite reverse_involutive. by split.
Qed.

(** X14. Disposing a subscription removes one subscription of that
    listener to that event, if there is one, and no subscription of any
    other listener or to the other event. *)
Theorem dispose_removes_one_subscription (d : Disposable) (w : World) :
  subscriptions (disp_event d) (disp_listener d) (exec (dispose d) w)
    = Nat.pred (subscriptions (disp_event d) (disp_listener d) w) /\
  forall event l,
    (event, l) <> (disp_event d, disp_listener d) ->
    subscriptions event l (exec (dispose d) w) = subscriptions event l w.
Proof.
  unfold subscriptions, dispose, off. run. split.
  - by rewrite count_reverse, remove_first_count, count_reverse.
  - intros event l Hne.
    by rewrite count_reverse, remove_first_count_other, count_reverse.
Qed.

(** ** Establishing and closing a connection *)

Section Establishing.

Variables (fresh : GitpodServerImpl) (client : Client) (request : Request) (w : World).

(** The new server is the initialized [fresh], appended to the live set. *)
Lemma onConnection_servers :
  uuid (target (onConnection fresh client request w).1) = uuid fresh /\
  servers (onConnection fresh client request w).2
  = servers w ++ [target (onConnection fresh client request w).1].
Proof.
  unfold onConnection, createRateLimiter, createProxyTarget, emit.
  destruct (req_user request) as [id|].
  - unfold UserRateLimiter_instance. run.
    destruct (user_instances w !! id); by split.
  - unfold AnonymRateLimiter_instance. run.
    destruct (anonym_instance_ w); by split.
Qed.

End Establishing.


(** X16. Each run of the close callback disposes the handler once and
    tells each listener of closed connections as often as it is
    subscribed; listeners of created connections are not told. *)
Theorem close_disposes_and_tells_closed_listeners
    (srv : GitpodServerImpl) (w : World) (l : Listener) :
  let w' := exec (onDidCloseConnection_callback srv) w in
  disposals (uuid srv) w' = S (disposals (uuid srv) w) /\
  notifications l EVENT_CONNECTION_CLOSED (uuid srv) w'
    = (notifications l EVENT_CONNECTION_CLOSED (uuid srv) w
       + subscriptions EVENT_CONNECTION_CLOSED l w)%nat /\
  notifications l EVENT_CONNECTION_CREATED (uuid srv) w'
    = notifications l EVENT_CONNECTION_CREATED (uuid srv) w.
Proof.
  cbv zeta.
  pose proof (notified_by_emission EVENT_CONNECTION_CLOSED l (uuid srv) (listeners w))
    as Htold.
  pose proof (not_notified_by_other_emission EVENT_CONNECTION_CREATED l
                EVENT_CONNECTION_CLOSED (uuid srv) (uuid srv)) as Hnot.
  assert (forall called : list (EventName * Listener),
            List.filter (isDisposeOf (uuid srv))
              (map (fun el : EventName * Listener =>
                      Notify el.2 EVENT_CONNECTION_CLOSED (uuid srv)) called) = [])
    as Hdisp.
  { induction called as [|el called IH]; [reflexivity|exact IH]. }
  unfold disposals, notifications, subscriptions in *.
  unfold onDidCloseConnection_callback, emit. run. unfold removeServer. proj.
  destruct (findIndex _ (servers w) =? -1); cbn [negb]; proj;
    rewrite !List.filter_app, !length_app, Hdisp, Htold, Hnot by discriminate;
    cbn [List.filter isDisposeOf isNotifyOf length];
    rewrite String.eqb_refl; cbn [length]; repeat split; lia.
Qed.

(** X17. A connection that is established and closed straight away leaves
    the live set as it was before, provided no server with the new
    handler's identifier was registered. *)
Theorem establish_then_close_restores_live_set
    (fresh : GitpodServerImpl) (client : Client) (request : Request) (w : World) :
  registered (uuid fresh) w = false ->
  let '(f, w') := onConnection fresh client request w in
  servers (exec (onDidCloseConnection_callback (target f)) w') = servers w /\
  registered (uuid fresh) (exec (onDidCloseConnection_callback (target f)) w') = false.
Proof.
  intros Hfresh.
  destruct (onConnection_servers fresh client request w) as [Hid Hservers].
  destruct (onConnection fresh client request w) as [f w']. cbn [fst snd] in *.
  assert (servers (exec (onDidCloseConnection_callback (target f)) w') = servers w)
    as Hback.
  { rewrite callback_servers. unfold exec, removeServer. rewrite Hservers, Hid.
    pose proof (splice_first_match (fun s => String.eqb (uuid s) (uuid fresh))
                  (servers w) [] (target f) Hfresh) as Hsplice.
    cbv beta in Hsplice.
    rewrite Hid, String.eqb_refl in Hsplice. specialize (Hsplice eq_refl).
    destruct (findIndex _ (servers w ++ [target f]) =? -1) eqn:E; cbn [negb snd]; proj.
    - apply Z.eqb_eq, findIndex_absent in E.
      rewrite existsb_app in E. cbn [existsb] in E.
      rewrite Hid, String.eqb_refl, orb_true_r in E. discriminate.
    - exact Hsplice. }
  split; [exact Hback|]. unfold registered in *. by rewrite Hback.
Qed.

Lemma establish_then_close_restores_live_set_witness :
  let '(f, w') := onConnection (newServer "d") "client-d" anonymous threeConnections in
  servers (exec (onDidCloseConnection_callback (target f)) w') = servers threeConnections /\
  registered "d" (exec (onDidCloseConnection_callback (target f)) w') = false.
Proof.
  apply (establish_then_close_restores_live_set (newServer "d") "client-d" anonymous
           threeConnections).
  reflexivity.
Defined.

Lemma removeServer_drops_the_tail_witness :
  servers (exec (removeServer serverB) threeConnections) = [serverA].
Proof.
  apply (removeServer_drops_the_tail serverB threeConnections [serverA] [serverC]).
  - reflexivity.
  - reflexivity.
Defined.

(** ** The seconds of the retry-after value *)

(** X19. The retry-after value of a rejection is always a string, the
    decimal numeral of the whole number of seconds nearest to the
    milliseconds until the refill (a tie going up), and it reads back as
    that number. *)
Theorem retry_after_is_the_nearest_second (r : RateLimiterRes) :
  exists n : Z,
    retryAfter r = JS.Str (JS.String_ n) /\
    NilZero.int_of_string (JS.String_ n) = Some (Z.to_int n) /\
    1000 * n - 500 <= msBeforeNext r < 1000 * n + 500.
Proof.
  exists (JS.Math_round_div (msBeforeNext r) 1000).
  split; [apply retryAfter_is_the_rounded_string|]. split.
  - unfold JS.String_. apply NilZero.isi.
    + destruct (JS.Math_round_div (msBeforeNext r) 1000) as [|p|p]; cbn;
        try discriminate.
      intros [= H]. by apply DecimalPos.Unsigned.to_uint_nonnil in H.
    + destruct (JS.Math_round_div (msBeforeNext r) 1000) as [|p|p]; cbn;
        try discriminate.
      intros [= H]. by apply DecimalPos.Unsigned.to_uint_nonnil in H.
  - unfold JS.Math_round_div.
    pose proof (Z.div_mod (2 * msBeforeNext r + 1000) (2 * 1000)) as Hdm.
    pose proof (Z.mod_pos_bound (2 * msBeforeNext r + 1000) (2 * 1000)) as Hb.
    lia.
Qed.

(** ** The login counter *)

(** X8. After any sequence of login reports the login counter of each
    pair of status and auth host has grown by the number of reports of
    that pair, and the connection and call counters have not moved. *)
Theorem login_counter_counts_reports
    (reports : list (string * string)) (status auth_host : string) (m : Metrics) :
  default 0 (loginCounter (reportLogins reports m) !! (status, auth_host))
    = default 0 (loginCounter m !! (status, auth_host))
      + reportsOf status auth_host reports /\
  apiConnectionCounter (reportLogins reports m) = apiConnectionCounter m /\
  apiConnectionClosedCounter (reportLogins reports m) = apiConnectionClosedCounter m /\
  apiCallCounter (reportLogins reports m) = apiCallCounter m.
Proof.
  unfold reportLogins, reportsOf. revert m.
  induction reports as [|[s h] reports IH]; intros m; cbn [fold_left List.filter fst snd].
  - cbn [length Z.of_nat]. by rewrite Z.add_0_r.
  - destruct (IH (increaseLoginCounter s h m)) as [Hcount [Hcreated [Hclosed Hcalls]]].
    rewrite Hcount, Hcreated, Hclosed, Hcalls.
    split; [|by repeat split].
    unfold increaseLoginCounter, inc. cbn [loginCounter].
    destruct (String.eqb s status && String.eqb h auth_host) eqn:E.
    + apply andb_true_iff in E as [Hs Hh].
      apply String.eqb_eq in Hs, Hh. subst.
      rewrite lookup_insert_eq. unfold default at 1. cbn [from_option id length]. lia.
    + rewrite lookup_insert_ne; [lia|].
      intros [= -> ->]. by rewrite !String.eqb_refl in E.
Qed.

(** ** The level of the log entries *)

Section LogLevels.

Lemma consume_logs_warnings (now : Z) (l : UserRateLimiter.t) (method : string) :
  forallb isWarning
    (map (fun e : LogEntry => Log e.1 e.2) (UserRateLimiter.consume now l method).1.2)
  = true.
Proof.
  unfold UserRateLimiter.consume.
  destruct (UserRateLimiter.isGroupOneMethod method).
  { by destruct (UserRateLimiter.consumeOne now l). }
  destruct (UserRateLimiter.isGroupTwoMethod method).
  { by destruct (UserRateLimiter.consumeTwo now l). }
  destruct (UserRateLimiter.isGroupThreeMethod method);
    by destruct (UserRateLimiter.consumeThree now l).
Qed.

Lemma RateLimiter_consume_logs (ref : RateLimiterRef) (method : string) (w : World) :
  exists added,
    trace (RateLimiter_consume ref method w).2 = trace w ++ added /\
    forallb isWarning added = true.
Proof.
  unfold RateLimiter_consume. destruct ref as [|u].
  - exists []. rewrite app_nil_r.
    destruct (anonym_instance_ w) as [a|]; [|by split].
    by destruct (AnonymRateLimiter.consume (clock w) a method).
  - destruct (user_instances w !! u) as [l|]; [|exists []; by rewrite app_nil_r].
    pose proof (consume_logs_warnings (clock w) l method) as Hw.
    destruct (UserRateLimiter.consume (clock w) l method) as [[r entries] l'].
    eexists. run. split; [reflexivity|exact Hw].
Qed.

End LogLevels.

(** X6. A call the limiter rejects for its quota leaves nothing in the
    log above the warning level: every entry the call adds is a warning,
    the last one naming the method, the user and the limiter's result. *)
Theorem rejection_is_logged_as_warning
    (this : GitpodJsonRpcProxyFactory) (method : string) (args : list JS.Value)
    (w w1 : World) (res : RateLimiterRes) :
  RateLimiter_consume (rateLimiter this) method w = (Rejected res, w1) ->
  exists added,
    trace (onRequest this method args w).2 = trace w ++ added /\
    forallb isWarning added = true /\
    last added
    = Some (Log Warn (TooManyRequests method (RateLimiter_user (rateLimiter this)) res)).
Proof.
  intros Hconsume.
  destruct (RateLimiter_consume_logs (rateLimiter this) method w) as [added [Htrace Hwarn]].
  rewrite Hconsume in Htrace. cbn [snd] in Htrace.
  unfold onRequest. run.
  rewrite consume_after_metric, Hconsume. proj.
  exists (added ++ [Log Warn (TooManyRequests method
                              (RateLimiter_user (rateLimiter this)) res)]).
  rewrite Htrace, <- app_assoc. split; [reflexivity|].
  split; [|apply last_snoc].
  rewrite forallb_app, Hwarn. reflexivity.
Qed.

Lemma rejection_is_logged_as_warning_witness :
  exists added,
    trace (onRequest aliceConnected.1 "getTerms" [] aliceExhausted).2
      = trace aliceExhausted ++ added /\
    forallb isWarning added = true /\
    last added
    = Some (Log Warn (TooManyRequests "getTerms"
                        (RateLimiter_user (rateLimiter aliceConnected.1))
                        (mkRateLimiterRes 0 60000 6 false))).
Proof.
  apply (rejection_is_logged_as_warning aliceConnected.1 "getTerms" []
           aliceExhausted
           (exec (RateLimiter_consume (UserRef "alice") "getTerms") aliceExhausted)
           (mkRateLimiterRes 0 60000 6 false)).
  vm_compute. reflexivity.
Defined.

(** * The charge of a call *)

Section Draw.

Variables (now : Z) (rl : RateLimiterMemory.t) (key : string).

(** How a draw settles: rejected exactly when the points drawn in the
    open window, this one included, exceed the points of the limiter. *)
Lemma consume_outcome :
  exists res,
    consumedPoints res = RateLimiterMemory.consumed now rl key + 1 /\
    (RateLimiterMemory.consume now rl key).1
    = if RateLimiterMemory.points rl <? RateLimiterMemory.consumed now rl key + 1
      then Rejected res else Resolved res.
Proof.
  pose proof (incr_value now rl key) as Hv.
  unfold RateLimiterMemory.consume.
  destruct (RateLimiterMemory.incr now rl key) as [r first]. cbn [fst] in *.
  eexists. split; [|rewrite <- Hv; reflexivity]. exact Hv.
Qed.

(** The record a draw stores holds one point more than had been drawn. *)
Lemma consume_stores :
  exists rec,
    RateLimiterMemory.storage (RateLimiterMemory.consume now rl key).2
    = <[RateLimiterMemory.getKey rl key := rec]> (RateLimiterMemory.storage rl) /\
    RateLimiterMemory.value rec = RateLimiterMemory.consumed now rl key + 1.
Proof.
  exists (RateLimiterMemory.incr now rl key).1.
  split; [apply consume_storage|apply incr_value].
Qed.




End Draw.

(** C1, amended. For every user's limiter and every operation absent
    from the classification table, [consume] draws one point from the
    tier-three limiter, whatever its quota is relative to the other
    tiers: the counter of the user in tier three, and no other counter
    of it, is advanced by one; the call is rejected exactly when that
    counter then exceeds the points of tier three and is admitted
    otherwise, never failing with an error; the other two tiers are
    untouched; and one warning is logged. *)
Theorem unclassified_method_charged_to_tier_three
    (now : Z) (l : UserRateLimiter.t) (method : string) :
  UserRateLimiter.methodTypeMapping !! method = None ->
  exists r l' res rec,
    UserRateLimiter.consume now l method
      = (r, [(Warn, NotConfiguredUsingFallback method)], l') /\
    consumeIn Three now l = (r, l') /\
    consumedPoints res
      = RateLimiterMemory.consumed now (limiterOf Three l) (UserRateLimiter.user l) + 1 /\
    r = (if RateLimiterMemory.points (limiterOf Three l)
            <? RateLimiterMemory.consumed now (limiterOf Three l)
                 (UserRateLimiter.user l) + 1
         then Rejected res else Resolved res) /\
    RateLimiterMemory.storage (limiterOf Three l')
      = <[RateLimiterMemory.getKey (limiterOf Three l) (UserRateLimiter.user l) := rec]>
          (RateLimiterMemory.storage (limiterOf Three l)) /\
    RateLimiterMemory.value rec
      = RateLimiterMemory.consumed now (limiterOf Three l) (UserRateLimiter.user l) + 1 /\
    (0 < RateLimiterMemory.duration (limiterOf Three l) ->
     RateLimiterMemory.consumed now (limiterOf Three l') (UserRateLimiter.user l)
     = RateLimiterMemory.consumed now (limiterOf Three l) (UserRateLimiter.user l) + 1) /\
    RateLimiterMemory.points (limiterOf Three l')
      = RateLimiterMemory.points (limiterOf Three l) /\
    RateLimiterMemory.duration (limiterOf Three l')
      = RateLimiterMemory.duration (limiterOf Three l) /\
    limiterOf One l' = limiterOf One l /\
    limiterOf Two l' = limiterOf Two l /\
    UserRateLimiter.user l' = UserRateLimiter.user l.
Proof.
  intros H. rewrite (consume_absent now l method H).
  cbn [consumeIn limiterOf]. unfold UserRateLimiter.consumeThree.
  destruct (consume_outcome now (UserRateLimiter.rateLimiterThree l)
              (UserRateLimiter.user l)) as [res [Hpts Hres]].
  destruct (consume_stores now (UserRateLimiter.rateLimiterThree l)
              (UserRateLimiter.user l)) as [rec [Hstore Hvalue]].
  pose proof (consume_config now (UserRateLimiter.rateLimiterThree l)
                (UserRateLimiter.user l)) as [_ [Hpoints Hduration]].
  pose proof (consumed_after_consume now (UserRateLimiter.rateLimiterThree l)
                (UserRateLimiter.user l)) as Hafter.
  destruct (RateLimiterMemory.consume now (UserRateLimiter.rateLimiterThree l)
              (UserRateLimiter.user l)) as [r rl'].
  cbn [fst snd] in *.
  exists r, (UserRateLimiter.mk (UserRateLimiter.user l)
               (UserRateLimiter.rateLimiterOne l) (UserRateLimiter.rateLimiterTwo l) rl'),
         res, rec.
  cbn [UserRateLimiter.rateLimiterThree UserRateLimiter.rateLimiterOne
       UserRateLimiter.rateLimiterTwo UserRateLimiter.user].
  repeat split; assumption.
Qed.

Lemma unclassified_method_charged_to_tier_three_witness :
  exists r l' res rec,
    UserRateLimiter.consume 0 aliceFresh "foo"
      = (r, [(Warn, NotConfiguredUsingFallback "foo")], l') /\
    consumeIn Three 0 aliceFresh = (r, l') /\
    consumedPoints res
      = RateLimiterMemory.consumed 0 (limiterOf Three aliceFresh)
          (UserRateLimiter.user aliceFresh) + 1 /\
    r = (if RateLimiterMemory.points (limiterOf Three aliceFresh)
            <? RateLimiterMemory.consumed 0 (limiterOf Three aliceFresh)
                 (UserRateLimiter.user aliceFresh) + 1
         then Rejected res else Resolved res) /\
    RateLimiterMemory.storage (limiterOf Three l')
      = <[RateLimiterMemory.getKey (limiterOf Three aliceFresh)
            (UserRateLimiter.user aliceFresh) := rec]>
          (RateLimiterMemory.storage (limiterOf Three aliceFresh)) /\
    RateLimiterMemory.value rec
      = RateLimiterMemory.consumed 0 (limiterOf Three aliceFresh)
          (UserRateLimiter.user aliceFresh) + 1 /\
    (0 < RateLimiterMemory.duration (limiterOf Three aliceFresh) ->
     RateLimiterMemory.consumed 0 (limiterOf Three l') (UserRateLimiter.user aliceFresh)
     = RateLimiterMemory.consumed 0 (limiterOf Three aliceFresh)
         (UserRateLimiter.user aliceFresh) + 1) /\
    RateLimiterMemory.points (limiterOf Three l')
      = RateLimiterMemory.points (limiterOf Three aliceFresh) /\
    RateLimiterMemory.duration (limiterOf Three l')
      = RateLimiterMemory.duration (limiterOf Three aliceFresh) /\
    limiterOf One l' = limiterOf One aliceFresh /\
    limiterOf Two l' = limiterOf Two aliceFresh /\
    UserRateLimiter.user l' = UserRateLimiter.user aliceFresh.
Proof.
  apply (unclassified_method_charged_to_tier_three 0 aliceFresh "foo").
  reflexivity.
Defined.

Section ChargedCounter.





End ChargedCounter.

Section DeniedCall.

Variables (this : GitpodJsonRpcProxyFactory) (method : string) (args : list JS.Value)
          (w : World).



End DeniedCall.






